(** * Chrome credentials worker: extraction, aggregation and report

    A shallow embedding of [src/tasks.py] (the [command] task, the
    [generate_report] function and the [_extract_chrome_creds] function)
    together with the properties of its specification.

    Python values are embedded as an inductive type, dictionaries as
    association lists in insertion order, and the effects of the task (the
    exceptions of the database library, the output-file factory, the files
    written) as a state-and-exception monad that keeps a trace of events. *)

From Stdlib Require Import List String Ascii ZArith Bool Arith Lia.
From Stdlib Require Import Decimal DecimalString Strings.Byte.
Import ListNotations.
Local Open Scope string_scope.
Local Open Scope list_scope.

(** ** Python values read from the database

    The [sqlite3] module converts the SQL values of a row to [None], [int],
    [str] and [bytes] (NULL, INTEGER, TEXT, BLOB).  REAL columns (Python
    floats) are left out of the embedding. *)

Inductive pyval : Type :=
| PyNone
| PyInt (z : Z)
| PyStr (s : string)
| PyBytes (b : list byte).

Fixpoint bytes_eqb (a b : list byte) : bool :=
  match a, b with
  | [], [] => true
  | x :: a', y :: b' => Byte.eqb x y && bytes_eqb a' b'
  | _, _ => false
  end.

(** Equality of dictionary keys ([==] together with [hash]); on the four
    classes above two values are equal keys exactly when they are the same
    value. *)
Definition pyval_eqb (a b : pyval) : bool :=
  match a, b with
  | PyNone, PyNone => true
  | PyInt x, PyInt y => Z.eqb x y
  | PyStr x, PyStr y => String.eqb x y
  | PyBytes x, PyBytes y => bytes_eqb x y
  | _, _ => false
  end.

(** Truth value of an object, as tested by [if not row[1]]. *)
Definition truthy (v : pyval) : bool :=
  match v with
  | PyNone => false
  | PyInt z => negb (Z.eqb z 0)
  | PyStr s => negb (String.eqb s "")
  | PyBytes b => match b with [] => false | _ => true end
  end.

(** ** Dictionaries

    A [dict] keeps its items in insertion order; assigning to a key that is
    present replaces the value where it stands, assigning to a new key adds
    the item at the end. *)

Definition dict (V : Type) : Type := list (pyval * V).

Section Dict.
Context {V : Type}.

Fixpoint dict_get (k : pyval) (d : dict V) : option V :=
  match d with
  | [] => None
  | (k', v) :: d' => if pyval_eqb k k' then Some v else dict_get k d'
  end.

(** [k in d] *)
Definition dict_contains (k : pyval) (d : dict V) : bool :=
  match dict_get k d with Some _ => true | None => false end.

(** [d[k] = v] *)
Fixpoint dict_set (k : pyval) (v : V) (d : dict V) : dict V :=
  match d with
  | [] => [(k, v)]
  | (k', v') :: d' =>
      if pyval_eqb k k' then (k', v) :: d' else (k', v') :: dict_set k v d'
  end.

(** [d.update(src)]: every item of [src], in its order, is assigned. *)
Definition dict_update (d src : dict V) : dict V :=
  fold_left (fun acc kv => dict_set (fst kv) (snd kv) acc) src d.

Definition dict_keys (d : dict V) : list pyval := map fst d.

(** [bool(d)] *)
Definition dict_truthy (d : dict V) : bool :=
  match d with [] => false | _ => true end.

End Dict.

(** ** Exceptions

    The classes of the exceptions that can reach the code.  In [sqlite3],
    [OperationalError], [IntegrityError] and [ProgrammingError] derive from
    [DatabaseError]; [InterfaceError] does not. *)

Inductive exn : Type :=
| OperationalError
| IntegrityError
| ProgrammingError
| DatabaseError
| InterfaceError
| TypeError
| KeyError
| OSError.

Definition exn_eqb (a b : exn) : bool :=
  match a, b with
  | OperationalError, OperationalError
  | IntegrityError, IntegrityError
  | ProgrammingError, ProgrammingError
  | DatabaseError, DatabaseError
  | InterfaceError, InterfaceError
  | TypeError, TypeError
  | KeyError, KeyError
  | OSError, OSError => true
  | _, _ => false
  end.

(** [isinstance e cls]: the class of [e] is [cls] or derives from it, which
    is what an [except cls:] clause tests. *)
Definition isinstance (e cls : exn) : bool :=
  exn_eqb e cls ||
  match cls, e with
  | DatabaseError, (OperationalError | IntegrityError | ProgrammingError) => true
  | _, _ => false
  end.

Inductive outcome (A : Type) : Type :=
| Return (a : A)
| Raise (e : exn).
Arguments Return {A} a.
Arguments Raise {A} e.

(** ** State and exceptions

    A computation takes the state, and gives back an outcome and the state
    it left: the state reached when an exception is raised is kept. *)

Definition M (S A : Type) : Type := S -> outcome A * S.

Definition mret {S A} (a : A) : M S A := fun s => (Return a, s).

Definition mbind {S A B} (m : M S A) (f : A -> M S B) : M S B :=
  fun s => match m s with
           | (Return a, s') => f a s'
           | (Raise e, s') => (Raise e, s')
           end.

Definition mraise {S A} (e : exn) : M S A := fun s => (Raise e, s).

Definition mget {S} : M S S := fun s => (Return s, s).

Definition mmodify {S} (f : S -> S) : M S unit := fun s => (Return tt, f s).

Declare Scope py_scope.
Delimit Scope py_scope with py.
Notation "x <- c1 ;; c2" := (mbind c1 (fun x => c2))
  (at level 61, c1 at next level, right associativity) : py_scope.
Notation "c1 ;; c2" := (mbind c1 (fun _ => c2))
  (at level 61, right associativity) : py_scope.
Local Open Scope py_scope.

(** [for x in l: body x], the body working on the state. *)
Fixpoint for_each {S A} (l : list A) (body : A -> M S unit) : M S unit :=
  match l with
  | [] => mret tt
  | x :: l' => body x ;; for_each l' body
  end.

(** [d[k]], which raises [KeyError] on a key that is not there. *)
Definition dict_getitem {S V} (k : pyval) (d : dict V) : M S V :=
  match dict_get k d with
  | Some v => mret v
  | None => mraise KeyError
  end.

(** ** Builtins of the runtime

    [str] and [repr] of a value are the runtime's; [list(set(l))] gives the
    distinct elements of [l] in an order the runtime chooses.  The code is
    embedded over any runtime of this interface. *)

Record Builtins : Type := {
  py_str : pyval -> string;
  py_repr : pyval -> string;
  list_of_set : list pyval -> list pyval;
  list_of_set_NoDup : forall l, NoDup (list_of_set l);
  list_of_set_In : forall l x, In x (list_of_set l) <-> In x l
}.

(** [str(n)] of a length. *)
Definition str_of_nat (n : nat) : string :=
  NilZero.string_of_uint (Nat.to_uint n).

(** [str(x)] of the result of [dict.get] on a text field: [None] when the
    key is not there. *)
Definition str_of_field (x : option string) : string :=
  match x with
  | Some s => s
  | None => "None"
  end.

Section Formatting.
Variable B : Builtins.

(** [repr] of a list: what [f"{v}"] and [str(v)] give for a list [v]. *)
Definition repr_list (v : list pyval) : string :=
  ("[" ++ String.concat ", " (map (py_repr B) v) ++ "]")%string.

(** [str(creds)] of a mapping from sites to lists. *)
Definition repr_dict (d : dict (list pyval)) : string :=
  ("{" ++ String.concat ", "
            (map (fun kv => py_repr B (fst kv) ++ ": " ++ repr_list (snd kv)) d)
       ++ "}")%string.
End Formatting.

(** ** The database library

    A row of the query has two columns.  Iterating over the cursor of an
    executed statement yields rows and then either stops or raises; a
    statement that cannot be executed raises before the first row.  A
    connection is given by what each statement does on it, and
    [sqlite3.connect] either raises or gives a connection. *)

Definition row : Type := (pyval * pyval)%type.

Record cursor : Type := {
  fetched : list row;
  failure : option exn
}.

Definition connection : Type := string -> cursor.

Inductive connect_result : Type :=
| ConnectRaises (e : exn)
| Connected (con : connection).

(** ** Output files and the job

    [create_output_file] belongs to the worker library: it raises, or it
    returns the descriptor of a new output file, with an identifier of its
    own, the display name and the data type it was given.  It makes the
    descriptor only: the file comes into being when the code opens the
    path of the descriptor for writing.  The state of a job holds the
    factory's next identifier, the trace of the effects so far, and the two
    locals that [command] mutates. *)

Record OutputFile : Type := {
  of_uuid : nat;
  of_output_path : option string;
  of_display_name : string;
  of_data_type : string
}.

Inductive event : Type :=
| EvCreateOutputFile (f : OutputFile)
| EvConnect (filepath : option string)
| EvClose (filepath : option string)
| EvOpen (f : OutputFile)
| EvWrite (f : OutputFile) (content : string).

(** What the calls outside the code do when they fail: the factory of the
    worker library on its three arguments, [open(path, "w")] on the path of
    a descriptor, and [fh.write(text)] on the file opened.  [None] is a
    call that returns. *)
Record Platform : Type := {
  factory_failure : option string -> string -> string -> option exn;
  open_failure : OutputFile -> option exn;
  write_failure : OutputFile -> string -> option exn
}.

Record Job : Type := {
  next_uuid : nat;
  trace : list event;
  output_files : list OutputFile;
  extracted_creds : dict (list pyval)
}.

Definition job_start : Job :=
  {| next_uuid := 0; trace := []; output_files := []; extracted_creds := [] |}.

Definition emit (e : event) : M Job unit :=
  mmodify (fun s => {| next_uuid := next_uuid s;
                       trace := trace s ++ [e];
                       output_files := output_files s;
                       extracted_creds := extracted_creds s |}).

Definition set_output_files (l : list OutputFile) : M Job unit :=
  mmodify (fun s => {| next_uuid := next_uuid s;
                       trace := trace s;
                       output_files := l;
                       extracted_creds := extracted_creds s |}).

Definition set_extracted_creds (d : dict (list pyval)) : M Job unit :=
  mmodify (fun s => {| next_uuid := next_uuid s;
                       trace := trace s;
                       output_files := output_files s;
                       extracted_creds := d |}).

Definition create_output_file (P : Platform) (output_path : option string)
    (display_name data_type : string) : M Job OutputFile :=
  match factory_failure P output_path display_name data_type with
  | Some e => mraise e
  | None =>
      s <- mget ;;
      let f := {| of_uuid := next_uuid s;
                  of_output_path := output_path;
                  of_display_name := display_name;
                  of_data_type := data_type |} in
      mmodify (fun s => {| next_uuid := S (next_uuid s);
                           trace := trace s ++ [EvCreateOutputFile f];
                           output_files := output_files s;
                           extracted_creds := extracted_creds s |}) ;;
      mret f
  end.

(** [open(f.path, "w", encoding="utf-8")]: the file is created, or emptied
    when it is there. *)
Definition open_w (P : Platform) (f : OutputFile) : M Job unit :=
  match open_failure P f with
  | Some e => mraise e
  | None => emit (EvOpen f)
  end.

(** [fh.write(text)] on the file opened for [f]. *)
Definition fh_write (P : Platform) (f : OutputFile) (text : string) : M Job unit :=
  match write_failure P f text with
  | Some e => mraise e
  | None => emit (EvWrite f text)
  end.

(** ** The report library

    A report has a title, a summary, a priority and sections; a section is
    the sequence of the bullets and paragraphs added to it.  A section is
    handed out by [add_section] and later written through that handle,
    which the embedding represents by the section's position. *)

Inductive Priority : Type := LOW | MEDIUM | HIGH | CRITICAL.

Inductive item : Type :=
| Bullet (level : nat) (text : string)
| Paragraph (text : string).

Record Report : Type := {
  title : string;
  summary : string;
  priority : Priority;
  sections : list (list item)
}.

(** The objects [generate_report] works on: its argument and the report it
    builds. *)
Record Frame : Type := {
  fr_creds : dict (list pyval);
  fr_report : Report
}.

Definition on_report (f : Report -> Report) : M Frame unit :=
  mmodify (fun fr => {| fr_creds := fr_creds fr; fr_report := f (fr_report fr) |}).

(** [Report(title)]; the summary and the priority it starts with are
    assigned by [generate_report] before anything reads them. *)
Definition new_Report (t : string) : M Frame unit :=
  on_report (fun _ => {| title := t; summary := ""; priority := LOW; sections := [] |}).

Definition add_section : M Frame nat :=
  fr <- mget ;;
  on_report (fun r => {| title := title r; summary := summary r;
                         priority := priority r;
                         sections := sections r ++ [[]] |}) ;;
  mret (List.length (sections (fr_report fr))).

Fixpoint section_add (i : nat) (x : item) (l : list (list item)) : list (list item) :=
  match l, i with
  | [], _ => []
  | s :: l', O => (s ++ [x]) :: l'
  | s :: l', S i' => s :: section_add i' x l'
  end.

Definition add_item (sec : nat) (x : item) : M Frame unit :=
  on_report (fun r => {| title := title r; summary := summary r;
                         priority := priority r;
                         sections := section_add sec x (sections r) |}).

Definition add_bullet (sec : nat) (text : string) (level : nat) : M Frame unit :=
  add_item sec (Bullet level text).

Definition add_paragraph (sec : nat) (text : string) : M Frame unit :=
  add_item sec (Paragraph text).

Definition set_summary (s : string) : M Frame unit :=
  on_report (fun r => {| title := title r; summary := s;
                         priority := priority r; sections := sections r |}).

Definition set_priority (p : Priority) : M Frame unit :=
  on_report (fun r => {| title := title r; summary := summary r;
                         priority := p; sections := sections r |}).

Definition get_summary : M Frame string :=
  fr <- mget ;; mret (summary (fr_report fr)).

(** The three uses [generate_report] makes of its argument. *)
Definition creds_len : M Frame nat :=
  fr <- mget ;; mret (List.length (fr_creds fr)).

Definition creds_bool : M Frame bool :=
  fr <- mget ;; mret (dict_truthy (fr_creds fr)).

Definition creds_items : M Frame (dict (list pyval)) :=
  fr <- mget ;; mret (fr_creds fr).

(** ** The code of [src/tasks.py] *)

(** A descriptor of an input file, as [get_input_files] resolves it; the
    code reads its two fields with [dict.get], which gives [None] for a
    field that is not there. *)
Record InputFile : Type := {
  in_display_name : option string;
  in_path : option string
}.

(** What [create_task_result] is given. *)
Record TaskResult : Type := {
  res_output_files : list OutputFile;
  res_workflow_id : option string;
  res_task_report : list Report
}.

Definition LOGINS_QUERY : string :=
  "SELECT origin_url, username_value FROM logins".

Definition REPORT_DATA_TYPE : string :=
  "worker:openrelik:chromecreds:report".

(** The [for row in cur.execute(...)] loop of [_extract_chrome_creds] with
    the dictionary [ret] it fills: the dictionary as it stands when the
    loop is left, and the exception that ended it, if one did. *)
Fixpoint fetch_loop (rows : list row) (stop : option exn)
    (ret : dict (list pyval)) : dict (list pyval) * option exn :=
  match rows with
  | [] => (ret, stop)
  | r :: rows' =>
      if negb (truthy (snd r)) then fetch_loop rows' stop ret
      else
        let ret1 :=
          if negb (dict_contains (fst r) ret) then dict_set (fst r) [] ret
          else ret in
        match dict_get (fst r) ret1 with
        | Some l => fetch_loop rows' stop (dict_set (fst r) (l ++ [snd r]) ret1)
        | None => (ret1, Some KeyError)
        end
  end.

Section Worker.
Variable B : Builtins.
Variable sqlite3_connect : option string -> connect_result.

(** [f"Site '{k}' with users '{v}'"] *)
Definition site_line (k : pyval) (v : list pyval) : string :=
  ("Site '" ++ py_str B k ++ "' with users '" ++ repr_list B v ++ "'")%string.

Definition generate_report_body : M Frame unit :=
  new_Report "Chrome Config Analyzer" ;;
  summary_section <- add_section ;;
  details_section <- add_section ;;
  n <- creds_len ;;
  set_summary (str_of_nat n ++ " saved credentials found in Chrome Login Data")%string ;;
  set_priority LOW ;;
  nonempty <- creds_bool ;;
  (if nonempty then
     set_priority MEDIUM ;;
     add_bullet details_section "Credentials:" 1 ;;
     items <- creds_items ;;
     for_each items (fun kv =>
       let line := site_line (fst kv) (snd kv) in
       add_bullet details_section line 2)
   else
     add_bullet details_section "No saved credentials found" 1) ;;
  s <- get_summary ;;
  add_paragraph summary_section s.

Definition blank_Report : Report :=
  {| title := ""; summary := ""; priority := LOW; sections := [] |}.

(** The call [generate_report(creds)]: the frame the body leaves. *)
Definition generate_report_frame (creds : dict (list pyval)) : Frame :=
  snd (generate_report_body {| fr_creds := creds; fr_report := blank_Report |}).

Definition generate_report (creds : dict (list pyval)) : Report :=
  fr_report (generate_report_frame creds).

Definition _extract_chrome_creds (filepath : option string)
    : M Job (dict (list pyval)) :=
  emit (EvConnect filepath) ;;
  match sqlite3_connect filepath with
  | ConnectRaises e => mraise e
  | Connected con =>
      let cur := con LOGINS_QUERY in
      let (ret, stop) := fetch_loop (fetched cur) (failure cur) [] in
      match stop with
      | Some e =>
          if isinstance e OperationalError then mret ret
          else if isinstance e DatabaseError then mret ret
          else mraise e
      | None => emit (EvClose filepath) ;; mret ret
      end
  end.

Section Command.
Variable P : Platform.
Variable output_path : option string.
Variable workflow_id : option string.

(** The body of the loop over the input files. *)
Definition process_file (input_file : InputFile) : M Job unit :=
  report_file <- create_output_file P output_path
    (str_of_field (in_display_name input_file) ++ "-chromecreds.dict")%string
    REPORT_DATA_TYPE ;;
  creds <- _extract_chrome_creds (in_path input_file) ;;
  s <- mget ;;
  set_extracted_creds (dict_update (extracted_creds s) creds) ;;
  if dict_truthy creds then
    open_w P report_file ;;
    fh_write P report_file (repr_dict B creds) ;;
    s <- mget ;;
    set_output_files (output_files s ++ [report_file])
  else mret tt.

(** [extracted_creds[key] = list(set(extracted_creds[key]))] *)
Definition dedup_key (key : pyval) : M Job unit :=
  s <- mget ;;
  v <- dict_getitem key (extracted_creds s) ;;
  set_extracted_creds (dict_set key (list_of_set B v) (extracted_creds s)).

(** The loop over the keys of [extracted_creds]. *)
Definition dedup_pass : M Job unit :=
  s <- mget ;;
  for_each (dict_keys (extracted_creds s)) dedup_key.

Definition command (input_files : list InputFile) : M Job TaskResult :=
  set_output_files [] ;;
  set_extracted_creds [] ;;
  for_each input_files process_file ;;
  dedup_pass ;;
  s <- mget ;;
  mret {| res_output_files := output_files s;
          res_workflow_id := workflow_id;
          res_task_report := [generate_report (extracted_creds s)] |}.

End Command.
End Worker.

(** ** A runtime

    [str] and [repr] as CPython prints the four classes of values, for text
    whose characters outside ASCII are printable (those are printed as they
    are), and [list(set(l))] in the order of first occurrence. *)

Module Runtime.

Definition quote1 : ascii := "039"%char.
Definition quote2 : ascii := "034"%char.
Definition backslash : ascii := "092"%char.

Fixpoint has_char (c : ascii) (s : string) : bool :=
  match s with
  | EmptyString => false
  | String c' s' => Ascii.eqb c c' || has_char c s'
  end.

Definition hex_digit (n : nat) : ascii :=
  if Nat.ltb n 10 then ascii_of_nat (48 + n) else ascii_of_nat (87 + n).

Definition hex_escape (n : nat) : string :=
  String backslash (String "x" (String (hex_digit (n / 16))
    (String (hex_digit (n mod 16)) EmptyString))).

(** One character inside quotes [q]; [hi] tells whether bytes from 128 on
    are escaped (they are in [bytes], not in [str]). *)
Definition escape_char (q : ascii) (hi : bool) (c : ascii) : string :=
  let n := nat_of_ascii c in
  if Ascii.eqb c backslash then String backslash (String backslash EmptyString)
  else if Ascii.eqb c q then String backslash (String q EmptyString)
  else if Nat.eqb n 10 then String backslash "n"
  else if Nat.eqb n 13 then String backslash "r"
  else if Nat.eqb n 9 then String backslash "t"
  else if Nat.ltb n 32 || Nat.eqb n 127 || (hi && Nat.leb 128 n) then hex_escape n
  else String c EmptyString.

Fixpoint escape (q : ascii) (hi : bool) (s : string) : string :=
  match s with
  | EmptyString => EmptyString
  | String c s' => (escape_char q hi c ++ escape q hi s')%string
  end.

Definition quoted (hi : bool) (s : string) : string :=
  let q := if has_char quote1 s && negb (has_char quote2 s) then quote2 else quote1 in
  String q (escape q hi s ++ String q EmptyString)%string.

Definition repr (v : pyval) : string :=
  match v with
  | PyNone => "None"
  | PyInt z => NilZero.string_of_int (Z.to_int z)
  | PyStr s => quoted false s
  | PyBytes b => String "b" (quoted true (string_of_list_byte b))
  end.

Definition str (v : pyval) : string :=
  match v with
  | PyStr s => s
  | _ => repr v
  end.

Definition pyval_eq_dec (a b : pyval) : {a = b} + {a <> b}.
Proof.
  decide equality;
    [apply Z.eq_dec | apply string_dec | apply (list_eq_dec Byte.byte_eq_dec)].
Defined.

Definition distinct (l : list pyval) : list pyval := nodup pyval_eq_dec l.

Definition cpython : Builtins :=
  {| py_str := str;
     py_repr := repr;
     list_of_set := distinct;
     list_of_set_NoDup := NoDup_nodup pyval_eq_dec;
     list_of_set_In := fun l x => nodup_In pyval_eq_dec l x |}.

End Runtime.

(** ** Notions used to state the properties *)

(** The name the loop gives to the output file of an input file. *)
Definition artifact_name (f : InputFile) : string :=
  (str_of_field (in_display_name f) ++ "-chromecreds.dict")%string.

(** The descriptor the factory returns for the input file [f] when its
    next identifier is [uuid]. *)
Definition artifact_of (output_path : option string) (uuid : nat) (f : InputFile)
    : OutputFile :=
  {| of_uuid := uuid;
     of_output_path := output_path;
     of_display_name := artifact_name f;
     of_data_type := REPORT_DATA_TYPE |}.

(** What the extraction of a path gives, the trace left aside. *)
Definition extraction (sqlite3_connect : option string -> connect_result)
    (filepath : option string) : outcome (dict (list pyval)) :=
  fst (_extract_chrome_creds sqlite3_connect filepath job_start).

(** The extraction of the input file returns a mapping that is not empty. *)
Definition yields_creds (sqlite3_connect : option string -> connect_result)
    (f : InputFile) : bool :=
  match extraction sqlite3_connect (in_path f) with
  | Return d => dict_truthy d
  | Raise _ => false
  end.

(** The input files with the identifiers their output files get, from
    [base] on. *)
Fixpoint numbered (base : nat) (files : list InputFile) : list (nat * InputFile) :=
  match files with
  | [] => []
  | f :: files' => (base, f) :: numbered (S base) files'
  end.

(** The state [s] after the events [evs]. *)
Definition after_events (s : Job) (evs : list event) : Job :=
  {| next_uuid := next_uuid s;
     trace := trace s ++ evs;
     output_files := output_files s;
     extracted_creds := extracted_creds s |}.

(** A store whose query yields [rows] and then ends as [stop] tells. *)
Definition store_of (rows : list row) (stop : option exn)
    : option string -> connect_result :=
  fun _ => Connected (fun _ => {| fetched := rows; failure := stop |}).

(** The state [s] with the local [extracted_creds] bound to [d]. *)
Definition with_creds (s : Job) (d : dict (list pyval)) : Job :=
  {| next_uuid := next_uuid s;
     trace := trace s;
     output_files := output_files s;
     extracted_creds := d |}.

(** The state in which [command] enters its loop: both locals empty. *)
Definition loop_entry (s : Job) : Job :=
  {| next_uuid := next_uuid s;
     trace := trace s;
     output_files := [];
     extracted_creds := [] |}.

(** The final pass on one item. *)
Definition dedup_item (B : Builtins) (kv : pyval * list pyval) : pyval * list pyval :=
  (fst kv, list_of_set B (snd kv)).

(** The summary line of a report on [n] sites. *)
Definition summary_of (n : nat) : string :=
  (str_of_nat n ++ " saved credentials found in Chrome Login Data")%string.

(** The bullet of one site in the details of a report. *)
Definition site_bullet (B : Builtins) (kv : pyval * list pyval) : item :=
  Bullet 2 (site_line B (fst kv) (snd kv)).

(** A username that is empty or absent. *)
Definition empty_or_absent (v : pyval) : Prop := v = PyNone \/ v = PyStr "".

(** The events of a call of the extractor: the connection, and its closing
    when the rows were read to the end. *)
Definition connect_events (sqlite3_connect : option string -> connect_result)
    (filepath : option string) : list event :=
  EvConnect filepath
  :: match sqlite3_connect filepath with
     | Connected con =>
         match failure (con LOGINS_QUERY) with
         | None => [EvClose filepath]
         | Some _ => []
         end
     | ConnectRaises _ => []
     end.

(** The exception, if any, of the [with open(...)] block for the mapping
    [d] and the descriptor [a]: the block is entered when [d] is not empty;
    the opening can raise, and then the write. *)
Definition block_failure (B : Builtins) (P : Platform) (a : OutputFile)
    (d : dict (list pyval)) : option exn :=
  if dict_truthy d then
    match open_failure P a with
    | Some e => Some e
    | None => write_failure P a (repr_dict B d)
    end
  else None.

(** The events of that block. *)
Definition block_events (B : Builtins) (P : Platform) (a : OutputFile)
    (d : dict (list pyval)) : list event :=
  if dict_truthy d then
    match open_failure P a with
    | Some _ => []
    | None =>
        EvOpen a
        :: match write_failure P a (repr_dict B d) with
           | Some _ => []
           | None => [EvWrite a (repr_dict B d)]
           end
    end
  else [].

(** The exception, if any, that ends the turn of the loop of [command] for
    the input file [snd nf], the next identifier of the factory being
    [fst nf]: that of the factory, else that of the extraction, else that of
    the block that writes. *)
Definition turn_failure (B : Builtins)
    (sqlite3_connect : option string -> connect_result) (P : Platform)
    (output_path : option string) (nf : nat * InputFile) : option exn :=
  match factory_failure P output_path (artifact_name (snd nf)) REPORT_DATA_TYPE with
  | Some e => Some e
  | None =>
      match extraction sqlite3_connect (in_path (snd nf)) with
      | Raise e => Some e
      | Return d =>
          block_failure B P (artifact_of output_path (fst nf) (snd nf)) d
      end
  end.

(** The events of that turn, up to the exception that ends it if one
    does. *)
Definition file_events (B : Builtins)
    (sqlite3_connect : option string -> connect_result) (P : Platform)
    (output_path : option string) (nf : nat * InputFile) : list event :=
  match factory_failure P output_path (artifact_name (snd nf)) REPORT_DATA_TYPE with
  | Some _ => []
  | None =>
      EvCreateOutputFile (artifact_of output_path (fst nf) (snd nf))
      :: connect_events sqlite3_connect (in_path (snd nf))
      ++ match extraction sqlite3_connect (in_path (snd nf)) with
         | Return d =>
             block_events B P (artifact_of output_path (fst nf) (snd nf)) d
         | Raise _ => []
         end
  end.

(** The exception of the first turn that fails, over numbered input
    files. *)
Fixpoint first_failure (B : Builtins)
    (sqlite3_connect : option string -> connect_result) (P : Platform)
    (output_path : option string) (nfs : list (nat * InputFile)) : option exn :=
  match nfs with
  | [] => None
  | nf :: nfs' =>
      match turn_failure B sqlite3_connect P output_path nf with
      | Some e => Some e
      | None => first_failure B sqlite3_connect P output_path nfs'
      end
  end.

(** The input files the loop reaches: all of them up to the first one whose
    turn fails, that one included. *)
Fixpoint reached (B : Builtins)
    (sqlite3_connect : option string -> connect_result) (P : Platform)
    (output_path : option string) (nfs : list (nat * InputFile))
    : list (nat * InputFile) :=
  match nfs with
  | [] => []
  | nf :: nfs' =>
      nf :: match turn_failure B sqlite3_connect P output_path nf with
            | Some _ => []
            | None => reached B sqlite3_connect P output_path nfs'
            end
  end.

(** The output files that a trace shows opened for writing: those that
    exist after it. *)
Fixpoint opened_files (tr : list event) : list OutputFile :=
  match tr with
  | [] => []
  | EvOpen f :: tr' => f :: opened_files tr'
  | _ :: tr' => opened_files tr'
  end.

(** The descriptors that a trace shows made by the factory. *)
Fixpoint made_descriptors (tr : list event) : list OutputFile :=
  match tr with
  | [] => []
  | EvCreateOutputFile f :: tr' => f :: made_descriptors tr'
  | _ :: tr' => made_descriptors tr'
  end.

(** The texts that a trace shows written, with their files. *)
Fixpoint written_texts (tr : list event) : list (OutputFile * string) :=
  match tr with
  | [] => []
  | EvWrite f text :: tr' => (f, text) :: written_texts tr'
  | _ :: tr' => written_texts tr'
  end.

(** The usernames that the rows give to a site, in the order of the rows:
    those of the rows of the site whose username is true. *)
Definition usernames_of (site : pyval) (rows : list row) : list pyval :=
  map snd (filter (fun r => truthy (snd r) && pyval_eqb (fst r) site) rows).

(** The keys of [l] in the order in which each is seen first, those of
    [seen] left out. *)
Fixpoint first_seen (seen l : list pyval) : list pyval :=
  match l with
  | [] => []
  | k :: l' =>
      if existsb (pyval_eqb k) seen then first_seen seen l'
      else k :: first_seen (k :: seen) l'
  end.

(** The sites of the rows that have a username. *)
Definition sites_with_username (rows : list row) : list pyval :=
  map fst (filter (fun r => truthy (snd r)) rows).

(** The mapping an input file contributes: the one its extraction returns. *)
Definition creds_of (sqlite3_connect : option string -> connect_result)
    (f : InputFile) : dict (list pyval) :=
  match extraction sqlite3_connect (in_path f) with
  | Return d => d
  | Raise _ => []
  end.

(** The list that the last of the files having the site gives to it. *)
Definition last_list (sqlite3_connect : option string -> connect_result)
    (site : pyval) (files : list InputFile) : option (list pyval) :=
  fold_left
    (fun acc f =>
       match dict_get site (creds_of sqlite3_connect f) with
       | Some l => Some l
       | None => acc
       end)
    files None.

(** ** A job of four files

    Two stores that share a site, a text file, and a path in a directory
    that does not exist; a descriptor without a path is opened as [None]. *)

Module Scenario.

Definition site_x : pyval := PyStr "http://x.com".

Definition rows_of (rows : list row) : connection :=
  fun sql =>
    if String.eqb sql LOGINS_QUERY then {| fetched := rows; failure := None |}
    else {| fetched := []; failure := Some OperationalError |}.

Definition fails_with (e : exn) : connection :=
  fun _ => {| fetched := []; failure := Some e |}.

Definition world (filepath : option string) : connect_result :=
  match filepath with
  | None => ConnectRaises TypeError
  | Some p =>
      if String.eqb p "/in/A" then
        Connected (rows_of [(site_x, PyStr "a")])
      else if String.eqb p "/in/B" then
        Connected (rows_of [(site_x, PyStr "a"); (PyStr "http://y.com", PyNone);
                            (site_x, PyStr "b"); (site_x, PyStr "")])
      else if String.eqb p "/in/notes.txt" then
        Connected (fails_with DatabaseError)
      else if String.eqb p "/no/such/dir/Login Data" then
        ConnectRaises OperationalError
      else Connected (fails_with OperationalError)
  end.

Definition file_A : InputFile :=
  {| in_display_name := Some "A"; in_path := Some "/in/A" |}.
Definition file_B : InputFile :=
  {| in_display_name := Some "B"; in_path := Some "/in/B" |}.
Definition file_notes : InputFile :=
  {| in_display_name := Some "notes.txt"; in_path := Some "/in/notes.txt" |}.
Definition file_unopenable : InputFile :=
  {| in_display_name := Some "Login Data";
     in_path := Some "/no/such/dir/Login Data" |}.
Definition file_no_path : InputFile :=
  {| in_display_name := Some "ghost"; in_path := None |}.

(** The factory wants an output directory; the directory "/missing" is
    not there, so nothing can be opened in it. *)
Definition platform : Platform :=
  {| factory_failure :=
       fun output_path _ _ =>
         match output_path with
         | None => Some TypeError
         | Some _ => None
         end;
     open_failure :=
       fun f =>
         match of_output_path f with
         | Some dir => if String.eqb dir "/missing" then Some OSError else None
         | None => Some TypeError
         end;
     write_failure := fun _ _ => None |}.

Definition run (files : list InputFile) : outcome TaskResult * Job :=
  command Runtime.cpython world platform (Some "/out") (Some "wf1") files job_start.

Definition no_result : TaskResult :=
  {| res_output_files := []; res_workflow_id := None; res_task_report := [] |}.

(** A job of three files that returns, its result and the state it
    leaves. *)
Definition job1 : list InputFile := [file_A; file_notes; file_B].

Definition result1 : TaskResult :=
  Eval vm_compute in
    match fst (run job1) with
    | Return r => r
    | Raise _ => no_result
    end.

Definition state1 : Job := Eval vm_compute in snd (run job1).

(** The mapping of the test of the repository. *)
Definition TWO_CREDENTIALS : dict (list pyval) :=
  [(PyStr "http://test.com", [PyStr "testuser"]);
   (PyStr "http://example.com", [PyStr "exampleuser"; PyStr "admin"])].

End Scenario.

(** A store that breaks after its first row: the iteration yields one
    login and then raises. *)
Definition truncated_rows : list row := [(PyStr "http://x.com", PyStr "a")].

Definition truncated_con : connection :=
  fun _ => {| fetched := truncated_rows; failure := Some DatabaseError |}.

Definition truncated_store : option string -> connect_result :=
  fun _ => Connected truncated_con.

(** A store whose driver raises an [InterfaceError] on the query. *)
Definition interface_failure_con : connection :=
  fun _ => {| fetched := []; failure := Some InterfaceError |}.

Definition interface_failure_store : option string -> connect_result :=
  fun _ => Connected interface_failure_con.

(** The rows of the store of file B. *)
Definition rows_B : list row :=
  [(Scenario.site_x, PyStr "a"); (PyStr "http://y.com", PyNone);
   (Scenario.site_x, PyStr "b"); (Scenario.site_x, PyStr "")].

(** A descriptor without a display name, for the store of file A, and the
    result of the job on it. *)
Definition file_anonymous : InputFile :=
  {| in_display_name := None; in_path := Some "/in/A" |}.

Definition result_anonymous : TaskResult :=
  Eval vm_compute in
    match fst (Scenario.run [file_anonymous]) with
    | Return r => r
    | Raise _ => Scenario.no_result
    end.

(** * Properties *)

(** ** Keys and dictionaries *)

Lemma bytes_eqb_eq (a b : list byte) : bytes_eqb a b = true <-> a = b.
Proof.
  revert b; induction a as [|x a IH]; intros [|y b]; simpl;
    try (split; discriminate); [tauto|].
  rewrite andb_true_iff, IH.
  split.
  - intros [E ->]. apply Byte.byte_dec_bl in E. now subst.
  - intros E; inversion E; subst.
    split; [now apply Byte.byte_dec_lb | reflexivity].
Qed.

Lemma pyval_eqb_eq (a b : pyval) : pyval_eqb a b = true <-> a = b.
Proof.
  destruct a, b; simpl; try (split; [discriminate | congruence]).
  - tauto.
  - rewrite Z.eqb_eq. split; congruence.
  - rewrite String.eqb_eq. split; congruence.
  - rewrite bytes_eqb_eq. split; congruence.
Qed.

Lemma pyval_eqb_refl (a : pyval) : pyval_eqb a a = true.
Proof. now apply pyval_eqb_eq. Qed.

Lemma pyval_eqb_neq (a b : pyval) : a <> b -> pyval_eqb a b = false.
Proof.
  intros N. destruct (pyval_eqb a b) eqn:E; [|reflexivity].
  apply pyval_eqb_eq in E. contradiction.
Qed.

Ltac key_cases a b :=
  let E := fresh "E" in
  destruct (pyval_eqb a b) eqn:E;
  [apply pyval_eqb_eq in E; subst | idtac].

Section DictFacts.
Context {V : Type}.
Implicit Types (d : dict V) (k : pyval) (v : V).

Lemma dict_get_set_same k v d : dict_get k (dict_set k v d) = Some v.
Proof.
  induction d as [|[k' v'] d IH]; simpl.
  - now rewrite pyval_eqb_refl.
  - destruct (pyval_eqb k k') eqn:E; simpl; rewrite E; auto.
Qed.

Lemma dict_get_set_other k k' v d :
  k <> k' -> dict_get k' (dict_set k v d) = dict_get k' d.
Proof.
  intros N. induction d as [|[k0 v0] d IH]; simpl.
  - rewrite pyval_eqb_neq; auto.
  - key_cases k k0; simpl.
    + rewrite pyval_eqb_neq; auto.
    + now rewrite IH.
Qed.

Lemma dict_get_In k v d : dict_get k d = Some v -> In (k, v) d.
Proof.
  induction d as [|[k0 v0] d IH]; simpl; [discriminate|].
  key_cases k k0.
  - intros [= ->]. now left.
  - intros H. right. auto.
Qed.

Lemma dict_get_None k d : dict_get k d = None <-> ~ In k (dict_keys d).
Proof.
  induction d as [|[k0 v0] d IH]; simpl; [tauto|].
  key_cases k k0.
  - split; [discriminate | intros N; exfalso; apply N; now left].
  - rewrite IH. split.
    + intros N [->|H]; [|auto]. rewrite pyval_eqb_refl in E. discriminate.
    + tauto.
Qed.

Lemma In_dict_get k v d :
  NoDup (dict_keys d) -> In (k, v) d -> dict_get k d = Some v.
Proof.
  induction d as [|[k0 v0] d IH]; simpl; [tauto|].
  intros ND [[= -> ->]|H].
  - now rewrite pyval_eqb_refl.
  - inversion ND as [|? ? N ND']; subst.
    key_cases k k0.
    + exfalso. apply N. change k0 with (fst (k0, v)). now apply in_map.
    + auto.
Qed.

(** Assigning to a key that is present leaves the keys as they are. *)
Lemma dict_keys_set_present k v d :
  In k (dict_keys d) -> dict_keys (dict_set k v d) = dict_keys d.
Proof.
  induction d as [|[k0 v0] d IH]; simpl; [tauto|].
  intros H. key_cases k k0; simpl; [reflexivity|].
  f_equal. apply IH. destruct H as [->|H]; [|assumption].
  rewrite pyval_eqb_refl in E. discriminate.
Qed.

(** Assigning to a new key adds it after the others. *)
Lemma dict_keys_set_new k v d :
  ~ In k (dict_keys d) -> dict_keys (dict_set k v d) = dict_keys d ++ [k].
Proof.
  induction d as [|[k0 v0] d IH]; simpl; [reflexivity|].
  intros N. key_cases k k0; simpl.
  - exfalso. apply N. now left.
  - f_equal. apply IH. tauto.
Qed.

Lemma dict_set_NoDup k v d :
  NoDup (dict_keys d) -> NoDup (dict_keys (dict_set k v d)).
Proof.
  intros ND. destruct (in_dec Runtime.pyval_eq_dec k (dict_keys d)) as [H|H].
  - now rewrite dict_keys_set_present.
  - rewrite dict_keys_set_new by assumption.
    apply NoDup_app; [assumption | repeat constructor; simpl; tauto |].
    intros x Hx [<-|[]]. contradiction.
Qed.

Lemma dict_update_NoDup d src :
  NoDup (dict_keys d) -> NoDup (dict_keys (dict_update d src)).
Proof.
  unfold dict_update. revert d.
  induction src as [|[k v] src IH]; simpl; intros d ND; [assumption|].
  apply IH. now apply dict_set_NoDup.
Qed.

(** A key of the source maps, after [update], to what the source gives
    it last; the other keys keep their values. *)
Lemma dict_get_update_absent k d src :
  ~ In k (dict_keys src) -> dict_get k (dict_update d src) = dict_get k d.
Proof.
  unfold dict_update. revert d.
  induction src as [|[k0 v0] src IH]; simpl; intros d N; [reflexivity|].
  rewrite IH by tauto. apply dict_get_set_other. intros ->. tauto.
Qed.

Lemma dict_get_update_present k v d src :
  NoDup (dict_keys src) -> dict_get k src = Some v ->
  dict_get k (dict_update d src) = Some v.
Proof.
  unfold dict_update. revert d.
  induction src as [|[k0 v0] src IH]; simpl; intros d ND H; [discriminate|].
  inversion ND as [|? ? N ND']; subst.
  key_cases k k0.
  - injection H as ->.
    change (dict_get k0 (dict_update (dict_set k0 v d) src) = Some v).
    rewrite dict_get_update_absent by assumption.
    apply dict_get_set_same.
  - now apply IH.
Qed.

End DictFacts.

(** ** The extractor *)

Lemma truthy_empty_or_absent (v : pyval) : empty_or_absent v -> truthy v = false.
Proof. intros [-> | ->]; reflexivity. Qed.

(** The loop over the rows ends as the cursor does: the [KeyError] of
    [ret[row[0]]] cannot occur, the key being set just before. *)
Lemma fetch_loop_stop (rows : list row) (stop : option exn) (ret : dict (list pyval)) :
  snd (fetch_loop rows stop ret) = stop.
Proof.
  revert ret. induction rows as [|[site u] rows IH]; intros ret; simpl; [reflexivity|].
  destruct (truthy u); simpl; [|apply IH].
  unfold dict_contains.
  destruct (dict_get site ret) as [l|] eqn:G; simpl.
  - rewrite G. apply IH.
  - rewrite dict_get_set_same. apply IH.
Qed.

(** A row whose username is false contributes nothing, wherever it stands. *)
Lemma fetch_loop_skip (rows1 rows2 : list row) (r : row) (stop : option exn)
    (ret : dict (list pyval)) :
  truthy (snd r) = false ->
  fetch_loop (rows1 ++ r :: rows2) stop ret = fetch_loop (rows1 ++ rows2) stop ret.
Proof.
  intros F. revert ret.
  induction rows1 as [|r1 rows1 IH]; intros ret; simpl.
  - now rewrite F.
  - destruct (negb (truthy (snd r1))); [apply IH|].
    destruct (dict_get (fst r1) _); [apply IH | reflexivity].
Qed.

(** A key of the mapping built by the loop was there before or comes from a
    row with a true username. *)
Lemma fetch_loop_keys (rows : list row) (stop : option exn) (ret : dict (list pyval))
    (site : pyval) :
  In site (dict_keys (fst (fetch_loop rows stop ret))) ->
  In site (dict_keys ret) \/ exists u, In (site, u) rows /\ truthy u = true.
Proof.
  revert ret. induction rows as [|[k u] rows IH]; intros ret; simpl; [tauto|].
  destruct (truthy u) eqn:T; simpl.
  - unfold dict_contains.
    destruct (dict_get k ret) as [l|] eqn:G; simpl.
    + rewrite G. intros H. apply IH in H. destruct H as [H|[u0 [H1 H2]]].
      * rewrite dict_keys_set_present in H.
        -- now left.
        -- destruct (in_dec Runtime.pyval_eq_dec k (dict_keys ret)) as [I|I]; [assumption|].
           apply dict_get_None in I. congruence.
      * right. exists u0. auto.
    + rewrite dict_get_set_same. intros H. apply IH in H.
      destruct H as [H|[u0 [H1 H2]]].
      * assert (NI : ~ In k (dict_keys ret)) by now apply dict_get_None.
        rewrite dict_keys_set_present in H.
        -- rewrite dict_keys_set_new in H by assumption.
           apply in_app_or in H. destruct H as [H|[<-|[]]]; [now left|].
           right. exists u. auto.
        -- rewrite dict_keys_set_new by assumption. apply in_or_app. right. now left.
      * right. exists u0. auto.
  - intros H. apply IH in H. destruct H as [H|[u0 [H1 H2]]]; [now left|].
    right. exists u0. auto.
Qed.

Section ExtractorFacts.
Variable sqlite3_connect : option string -> connect_result.
Variable filepath : option string.

(** A failure of [sqlite3.connect] is outside the [try]: it leaves the
    function as it is. *)
Lemma extract_connect_raises (e : exn) (s : Job) :
  sqlite3_connect filepath = ConnectRaises e ->
  _extract_chrome_creds sqlite3_connect filepath s
  = (Raise e, after_events s [EvConnect filepath]).
Proof.
  intros C. unfold _extract_chrome_creds, mbind, emit, mmodify. simpl.
  rewrite C. reflexivity.
Qed.

(** The rows were read to the end: the connection is closed and the
    mapping returned. *)
Lemma extract_rows_read (con : connection) (s : Job) :
  sqlite3_connect filepath = Connected con ->
  failure (con LOGINS_QUERY) = None ->
  _extract_chrome_creds sqlite3_connect filepath s
  = (Return (fst (fetch_loop (fetched (con LOGINS_QUERY)) None [])),
     after_events s [EvConnect filepath; EvClose filepath]).
Proof.
  intros C F. unfold _extract_chrome_creds, mbind, emit, mmodify. simpl.
  rewrite C, F.
  pose proof (fetch_loop_stop (fetched (con LOGINS_QUERY)) None []) as St.
  destruct (fetch_loop _ None []) as [ret stop]. simpl in *. subst stop.
  unfold after_events, mret. simpl. now rewrite <- app_assoc.
Qed.

(** The query or the iteration raised [e]: an [OperationalError] or
    another [DatabaseError] is absorbed and the mapping built so far is
    returned (the connection is not closed); anything else leaves the
    function. *)
Lemma extract_query_raises (con : connection) (e : exn) (s : Job) :
  sqlite3_connect filepath = Connected con ->
  failure (con LOGINS_QUERY) = Some e ->
  _extract_chrome_creds sqlite3_connect filepath s
  = (if isinstance e DatabaseError
     then Return (fst (fetch_loop (fetched (con LOGINS_QUERY)) (Some e) []))
     else Raise e,
     after_events s [EvConnect filepath]).
Proof.
  intros C F. unfold _extract_chrome_creds, mbind, emit, mmodify. simpl.
  rewrite C, F.
  pose proof (fetch_loop_stop (fetched (con LOGINS_QUERY)) (Some e) []) as St.
  destruct (fetch_loop _ (Some e) []) as [ret stop]. simpl in *. subst stop.
  destruct e; reflexivity.
Qed.

(** The outcome of an extraction does not depend on the state of the job. *)
Lemma extract_outcome (s : Job) :
  fst (_extract_chrome_creds sqlite3_connect filepath s)
  = extraction sqlite3_connect filepath.
Proof.
  unfold extraction.
  destruct (sqlite3_connect filepath) as [e|con] eqn:C.
  - now rewrite !(extract_connect_raises e).
  - destruct (failure (con LOGINS_QUERY)) as [e|] eqn:F.
    + now rewrite !(extract_query_raises con e).
    + now rewrite !(extract_rows_read con).
Qed.

(** A call of the extractor: its outcome, and the events it leaves. *)
Lemma extract_run (s : Job) :
  _extract_chrome_creds sqlite3_connect filepath s
  = (extraction sqlite3_connect filepath,
     after_events s (connect_events sqlite3_connect filepath)).
Proof.
  unfold extraction, connect_events.
  destruct (sqlite3_connect filepath) as [e|con] eqn:C.
  - now rewrite !(extract_connect_raises e).
  - destruct (failure (con LOGINS_QUERY)) as [e|] eqn:F.
    + now rewrite !(extract_query_raises con e).
    + now rewrite !(extract_rows_read con).
Qed.

End ExtractorFacts.

(** ** One turn of the loop of [command] *)

Section LoopFacts.
Variable B : Builtins.
Variable sqlite3_connect : option string -> connect_result.
Variable P : Platform.
Variable output_path : option string.

(** The factory is called first and its exception ends the turn; then the
    extractor, whose exception ends the turn; its mapping is merged with
    [update]; when the mapping is not empty the file is opened and written,
    either of which can end the turn, and the descriptor is recorded. *)
Lemma process_file_spec (f : InputFile) (s : Job) :
  process_file B sqlite3_connect P output_path f s
  = match factory_failure P output_path (artifact_name f) REPORT_DATA_TYPE with
    | Some e => (Raise e, s)
    | None =>
        match extraction sqlite3_connect (in_path f) with
        | Raise e =>
            (Raise e,
             {| next_uuid := S (next_uuid s);
                trace := trace s
                         ++ file_events B sqlite3_connect P output_path (next_uuid s, f);
                output_files := output_files s;
                extracted_creds := extracted_creds s |})
        | Return d =>
            (match block_failure B P (artifact_of output_path (next_uuid s) f) d with
             | Some e => Raise e
             | None => Return tt
             end,
             {| next_uuid := S (next_uuid s);
                trace := trace s
                         ++ file_events B sqlite3_connect P output_path (next_uuid s, f);
                output_files :=
                  output_files s
                  ++ (if dict_truthy d
                      then match block_failure B P
                                   (artifact_of output_path (next_uuid s) f) d with
                           | Some _ => []
                           | None => [artifact_of output_path (next_uuid s) f]
                           end
                      else []);
                extracted_creds := dict_update (extracted_creds s) d |})
        end
    end.
Proof.
  unfold process_file, create_output_file, file_events.
  cbn [fst snd]. fold (artifact_name f).
  destruct (factory_failure P output_path (artifact_name f) REPORT_DATA_TYPE)
    as [e|] eqn:FF.
  - reflexivity.
  - unfold mbind at 1 2 3. unfold mget at 1, mmodify at 1, mret at 1.
    cbv beta iota. unfold mbind at 1. rewrite extract_run.
    fold (artifact_of output_path (next_uuid s) f).
    destruct (extraction sqlite3_connect (in_path f)) as [d|e].
    + unfold block_failure, block_events, open_w, fh_write.
      destruct (dict_truthy d) eqn:T.
      * destruct (open_failure P (artifact_of output_path (next_uuid s) f)) as [e1|];
          [|destruct (write_failure P (artifact_of output_path (next_uuid s) f)
                        (repr_dict B d)) as [e2|]];
          unfold mbind, mget, set_extracted_creds, set_output_files, emit, mmodify,
            mret, mraise, after_events;
          cbn [next_uuid trace output_files extracted_creds];
          rewrite ?T; cbn [next_uuid trace output_files extracted_creds];
          rewrite <- ?app_assoc; cbn [Datatypes.app]; rewrite ?app_nil_r;
          reflexivity.
      * unfold mbind, mget, set_extracted_creds, set_output_files, emit, mmodify,
          mret, mraise, after_events;
          cbn [next_uuid trace output_files extracted_creds];
          rewrite ?T; cbn [next_uuid trace output_files extracted_creds];
          rewrite <- ?app_assoc; cbn [Datatypes.app]; rewrite ?app_nil_r;
          reflexivity.
    + unfold after_events. cbn [next_uuid trace output_files extracted_creds].
      rewrite <- ?app_assoc. cbn [Datatypes.app]. rewrite ?app_nil_r. reflexivity.
Qed.

(** The outcome of a turn. *)
Lemma process_file_outcome (f : InputFile) (s : Job) :
  fst (process_file B sqlite3_connect P output_path f s)
  = match turn_failure B sqlite3_connect P output_path (next_uuid s, f) with
    | Some e => Raise e
    | None => Return tt
    end.
Proof.
  rewrite process_file_spec. unfold turn_failure. cbn [fst snd].
  destruct (factory_failure P output_path (artifact_name f) REPORT_DATA_TYPE);
    [reflexivity|].
  destruct (extraction sqlite3_connect (in_path f)); reflexivity.
Qed.

(** The events of a turn. *)
Lemma process_file_trace (f : InputFile) (s : Job) :
  trace (snd (process_file B sqlite3_connect P output_path f s))
  = trace s ++ file_events B sqlite3_connect P output_path (next_uuid s, f).
Proof.
  rewrite process_file_spec.
  destruct (factory_failure P output_path (artifact_name f) REPORT_DATA_TYPE) eqn:FF.
  - unfold file_events. cbn [fst snd]. rewrite FF. now rewrite app_nil_r.
  - destruct (extraction sqlite3_connect (in_path f)); reflexivity.
Qed.

(** A turn that does not fail. *)
Lemma process_file_returns (f : InputFile) (s : Job) :
  turn_failure B sqlite3_connect P output_path (next_uuid s, f) = None ->
  exists d,
    extraction sqlite3_connect (in_path f) = Return d
    /\ process_file B sqlite3_connect P output_path f s
       = (Return tt,
          {| next_uuid := S (next_uuid s);
             trace := trace s
                      ++ file_events B sqlite3_connect P output_path (next_uuid s, f);
             output_files :=
               output_files s
               ++ (if dict_truthy d
                   then [artifact_of output_path (next_uuid s) f] else []);
             extracted_creds := dict_update (extracted_creds s) d |}).
Proof.
  unfold turn_failure. cbn [fst snd]. rewrite process_file_spec.
  destruct (factory_failure P output_path (artifact_name f) REPORT_DATA_TYPE);
    [discriminate|].
  destruct (extraction sqlite3_connect (in_path f)) as [d|e]; [|discriminate].
  intros BF. exists d. split; [reflexivity|]. rewrite BF.
  destruct (dict_truthy d); reflexivity.
Qed.

End LoopFacts.

(** ** The loop over the input files *)

Section JobFacts.
Variable B : Builtins.
Variable sqlite3_connect : option string -> connect_result.
Variable P : Platform.
Variable output_path : option string.
Variable workflow_id : option string.

Let body := process_file B sqlite3_connect P output_path.
Let events := file_events B sqlite3_connect P output_path.
Let failure_of := turn_failure B sqlite3_connect P output_path.
Let artifact (nf : nat * InputFile) := artifact_of output_path (fst nf) (snd nf).
Let yields (nf : nat * InputFile) := yields_creds sqlite3_connect (snd nf).

(** A turn that fails leaves the loop with its exception. *)
Lemma loop_step (f : InputFile) (files : list InputFile) (s : Job) :
  for_each (f :: files) body s
  = match fst (body f s) with
    | Return _ => for_each files body (snd (body f s))
    | Raise e => (Raise e, snd (body f s))
    end.
Proof.
  cbn [for_each]. unfold mbind. destruct (body f s) as [[u|e] s1]; reflexivity.
Qed.

(** Whatever its outcome, the loop leaves the events of the files it
    reached, in their order. *)
Lemma loop_trace (files : list InputFile) (s : Job) :
  trace (snd (for_each files body s))
  = trace s
    ++ List.concat
         (map events
              (reached B sqlite3_connect P output_path (numbered (next_uuid s) files))).
Proof.
  revert s. induction files as [|f files IH]; intros s.
  - simpl. now rewrite app_nil_r.
  - rewrite loop_step. cbn [numbered reached map List.concat].
    pose proof (process_file_outcome B sqlite3_connect P output_path f s) as O.
    pose proof (process_file_trace B sqlite3_connect P output_path f s) as T.
    fold body in O, T. fold events in T.
    destruct (turn_failure B sqlite3_connect P output_path (next_uuid s, f))
      as [e|] eqn:TF.
    + rewrite O. cbn [snd map List.concat]. rewrite T. now rewrite app_nil_r.
    + rewrite O. rewrite IH, T.
      destruct (process_file_returns B sqlite3_connect P output_path f s TF)
        as [d [_ R]].
      fold body in R. rewrite R. cbn [snd next_uuid]. now rewrite <- app_assoc.
Qed.

(** The outcome of the loop is decided by the first turn that fails. *)
Lemma loop_outcome (files : list InputFile) (s : Job) :
  fst (for_each files body s)
  = match first_failure B sqlite3_connect P output_path
            (numbered (next_uuid s) files) with
    | Some e => Raise e
    | None => Return tt
    end.
Proof.
  revert s. induction files as [|f files IH]; intros s; [reflexivity|].
  rewrite loop_step. cbn [numbered first_failure].
  pose proof (process_file_outcome B sqlite3_connect P output_path f s) as O.
  fold body in O.
  destruct (turn_failure B sqlite3_connect P output_path (next_uuid s, f))
    as [e|] eqn:TF; rewrite O; [reflexivity|].
  rewrite IH.
  destruct (process_file_returns B sqlite3_connect P output_path f s TF) as [d [_ R]].
  fold body in R. rewrite R. reflexivity.
Qed.

(** A loop that returns has had no failing turn, has recorded the
    descriptors of the files that gave credentials, and has left the keys
    of the aggregate without duplicates. *)
Lemma loop_returns (files : list InputFile) (s s' : Job) :
  for_each files body s = (Return tt, s') ->
  first_failure B sqlite3_connect P output_path (numbered (next_uuid s) files) = None
  /\ output_files s'
     = output_files s ++ map artifact (filter yields (numbered (next_uuid s) files))
  /\ (NoDup (dict_keys (extracted_creds s)) -> NoDup (dict_keys (extracted_creds s'))).
Proof.
  revert s. induction files as [|f files IH]; intros s.
  - simpl. intros [= <-]. rewrite app_nil_r. auto.
  - rewrite loop_step. cbn [numbered first_failure filter map].
    pose proof (process_file_outcome B sqlite3_connect P output_path f s) as O.
    fold body in O.
    destruct (turn_failure B sqlite3_connect P output_path (next_uuid s, f))
      as [e|] eqn:TF; rewrite O; [discriminate|].
    destruct (process_file_returns B sqlite3_connect P output_path f s TF) as [d [X R]].
    fold body in R. rewrite R. cbn [snd]. intros H. apply IH in H.
    cbn [next_uuid output_files extracted_creds] in H.
    destruct H as (A & O' & N). split; [exact A|]. split.
    + assert (Y : yields (next_uuid s, f) = dict_truthy d)
        by (unfold yields, yields_creds; cbn [snd]; now rewrite X).
      rewrite O', <- app_assoc, Y. f_equal.
      destruct (dict_truthy d); reflexivity.
    + intros ND. apply N. now apply dict_update_NoDup.
Qed.

(** Every turn of a loop without a failure has its extraction return. *)
Lemma no_failure_extractions (base : nat) (files : list InputFile) :
  first_failure B sqlite3_connect P output_path (numbered base files) = None ->
  reached B sqlite3_connect P output_path (numbered base files) = numbered base files
  /\ forall f, In f files ->
               factory_failure P output_path (artifact_name f) REPORT_DATA_TYPE = None
               /\ exists d, extraction sqlite3_connect (in_path f) = Return d.
Proof.
  revert base. induction files as [|f files IH]; intros base; cbn [numbered first_failure reached].
  - intros _. split; [reflexivity | intros f []].
  - destruct (turn_failure B sqlite3_connect P output_path (base, f)) as [e|] eqn:TF;
      [discriminate|].
    intros H. destruct (IH _ H) as [R A]. rewrite R. split; [reflexivity|].
    intros g [<-|I]; [|now apply A].
    unfold turn_failure in TF. cbn [fst snd] in TF.
    destruct (factory_failure P output_path (artifact_name f) REPORT_DATA_TYPE);
      [discriminate|].
    split; [reflexivity|].
    destruct (extraction sqlite3_connect (in_path f)) as [d|e]; [|discriminate].
    now exists d.
Qed.

Lemma loop_outcome_unit (files : list InputFile) (s : Job) (u : unit) (s' : Job) :
  for_each files body s = (Return u, s') -> for_each files body s = (Return tt, s').
Proof. now destruct u. Qed.

End JobFacts.

(** ** The final pass and the task *)

Lemma dict_get_app_new {V : Type} (k : pyval) (pre d : dict V) :
  ~ In k (dict_keys pre) -> dict_get k (pre ++ d) = dict_get k d.
Proof.
  induction pre as [|[k0 v0] pre IH]; simpl; intros N; [reflexivity|].
  rewrite pyval_eqb_neq by (intros ->; tauto). apply IH. tauto.
Qed.

Lemma dict_set_app_new {V : Type} (k : pyval) (v : V) (pre d : dict V) :
  ~ In k (dict_keys pre) -> dict_set k v (pre ++ d) = pre ++ dict_set k v d.
Proof.
  induction pre as [|[k0 v0] pre IH]; simpl; intros N; [reflexivity|].
  rewrite pyval_eqb_neq by (intros ->; tauto). f_equal. apply IH. tauto.
Qed.

Lemma dedup_item_keys (B : Builtins) (d : dict (list pyval)) :
  dict_keys (map (dedup_item B) d) = dict_keys d.
Proof. unfold dict_keys. rewrite map_map. reflexivity. Qed.

Section TaskFacts.
Variable B : Builtins.
Variable sqlite3_connect : option string -> connect_result.
Variable P : Platform.
Variable output_path : option string.
Variable workflow_id : option string.

Lemma dedup_key_spec (k : pyval) (v : list pyval) (s : Job) :
  dict_get k (extracted_creds s) = Some v ->
  dedup_key B k s
  = (Return tt, with_creds s (dict_set k (list_of_set B v) (extracted_creds s))).
Proof.
  intros G. unfold dedup_key, mbind, mget, dict_getitem. now rewrite G.
Qed.

(** The loop of the final pass, part of the items being done ([pre]) and
    the others ([post]) still to do. *)
Lemma dedup_loop (pre post : dict (list pyval)) (s : Job) :
  NoDup (dict_keys (pre ++ post)) ->
  for_each (dict_keys post) (dedup_key B) (with_creds s (pre ++ post))
  = (Return tt, with_creds s (pre ++ map (dedup_item B) post)).
Proof.
  revert pre. induction post as [|[k v] post IH]; intros pre ND.
  - reflexivity.
  - assert (NI : ~ In k (dict_keys pre)).
    { unfold dict_keys in *. rewrite map_app in ND. simpl in ND.
      apply NoDup_remove_2 in ND. intros I. apply ND. apply in_or_app. now left. }
    cbn [dict_keys map for_each fst]. unfold mbind.
    rewrite (dedup_key_spec k v).
    + cbn [extracted_creds with_creds].
      rewrite dict_set_app_new by assumption.
      cbn [dict_set]. rewrite pyval_eqb_refl.
      specialize (IH (pre ++ [(k, list_of_set B v)])).
      rewrite <- !app_assoc in IH.
      unfold with_creds in IH |- *. cbn [next_uuid trace output_files] in *.
      apply IH. unfold dict_keys in *. rewrite map_app in *. exact ND.
    + cbn [extracted_creds with_creds].
      rewrite dict_get_app_new by assumption.
      cbn [dict_get]. now rewrite pyval_eqb_refl.
Qed.

(** The final pass returns, and replaces every list by its distinct
    elements, the keys staying in their order. *)
Lemma dedup_pass_spec (s : Job) :
  NoDup (dict_keys (extracted_creds s)) ->
  dedup_pass B s
  = (Return tt, with_creds s (map (dedup_item B) (extracted_creds s))).
Proof.
  intros ND. unfold dedup_pass. unfold mbind at 1. unfold mget at 1.
  pose proof (dedup_loop [] (extracted_creds s) s ND) as H.
  cbn [Datatypes.app] in H. destruct s; exact H.
Qed.

(** The task: the loop from empty locals, then the final pass, then the
    report of the aggregate. *)
Lemma command_spec (input_files : list InputFile) (s : Job) :
  command B sqlite3_connect P output_path workflow_id input_files s
  = match for_each input_files (process_file B sqlite3_connect P output_path)
            (loop_entry s) with
    | (Return _, s1) =>
        let final := map (dedup_item B) (extracted_creds s1) in
        (Return {| res_output_files := output_files s1;
                   res_workflow_id := workflow_id;
                   res_task_report := [generate_report B final] |},
         with_creds s1 final)
    | (Raise e, s1) => (Raise e, s1)
    end.
Proof.
  unfold command. unfold mbind at 1 2 3.
  unfold set_output_files at 1, set_extracted_creds at 1, mmodify.
  cbn [next_uuid trace output_files extracted_creds].
  fold (loop_entry s).
  destruct (for_each input_files _ (loop_entry s)) as [[u|e] s1] eqn:L;
    [|reflexivity].
  apply loop_outcome_unit in L. apply loop_returns in L.
  destruct L as (_ & _ & ND). specialize (ND (NoDup_nil _)).
  unfold mbind at 1. rewrite dedup_pass_spec by assumption.
  reflexivity.
Qed.

(** The task fails with the first turn that fails, and returns when none
    does. *)
Lemma command_outcome (input_files : list InputFile) (s : Job) :
  match first_failure B sqlite3_connect P output_path
          (numbered (next_uuid s) input_files) with
  | Some e =>
      fst (command B sqlite3_connect P output_path workflow_id input_files s) = Raise e
  | None =>
      exists r,
        fst (command B sqlite3_connect P output_path workflow_id input_files s)
        = Return r
  end.
Proof.
  rewrite command_spec.
  pose proof (loop_outcome B sqlite3_connect P output_path input_files (loop_entry s))
    as L.
  cbn [loop_entry next_uuid] in L.
  destruct (for_each input_files _ (loop_entry s)) as [[u|e] s1]; cbn [fst] in *;
    destruct (first_failure B sqlite3_connect P output_path
                (numbered (next_uuid s) input_files)); try discriminate.
  - eexists. reflexivity.
  - congruence.
Qed.

(** A task that returns has had no failing turn. *)
Lemma command_returns_no_failure (input_files : list InputFile) (s : Job)
    (r : TaskResult) :
  fst (command B sqlite3_connect P output_path workflow_id input_files s) = Return r ->
  first_failure B sqlite3_connect P output_path (numbered (next_uuid s) input_files)
  = None.
Proof.
  intros H. pose proof (command_outcome input_files s) as O.
  destruct (first_failure B sqlite3_connect P output_path
              (numbered (next_uuid s) input_files)); [congruence | reflexivity].
Qed.

End TaskFacts.

Lemma numbered_app (base : nat) (l1 l2 : list InputFile) :
  numbered base (l1 ++ l2)
  = numbered base l1 ++ numbered (base + List.length l1) l2.
Proof.
  revert base. induction l1 as [|f l1 IH]; intros base; simpl.
  - now rewrite Nat.add_0_r.
  - rewrite IH. now rewrite Nat.add_succ_r.
Qed.

Lemma first_failure_app (B : Builtins)
    (sqlite3_connect : option string -> connect_result) (P : Platform)
    (output_path : option string) (l1 l2 : list (nat * InputFile)) :
  first_failure B sqlite3_connect P output_path (l1 ++ l2)
  = match first_failure B sqlite3_connect P output_path l1 with
    | Some e => Some e
    | None => first_failure B sqlite3_connect P output_path l2
    end.
Proof.
  induction l1 as [|nf l1 IH]; simpl; [reflexivity|].
  destruct (turn_failure B sqlite3_connect P output_path nf); [reflexivity | exact IH].
Qed.

(** ** The report *)

Section ReportFacts.
Variable B : Builtins.

(** The loop over the items adds one bullet of level 2 per item to the
    second section, and touches nothing else. *)
Lemma site_bullets_loop (items creds : dict (list pyval)) (t sm : string)
    (p : Priority) (first details : list item) :
  for_each items
    (fun kv => add_bullet 1 (site_line B (fst kv) (snd kv)) 2)
    {| fr_creds := creds;
       fr_report := {| title := t; summary := sm; priority := p;
                       sections := [first; details] |} |}
  = (Return tt,
     {| fr_creds := creds;
        fr_report := {| title := t; summary := sm; priority := p;
                        sections := [first; details ++ map (site_bullet B) items] |} |}).
Proof.
  revert details. induction items as [|kv items IH]; intros details.
  - simpl. now rewrite app_nil_r.
  - cbn [for_each map]. unfold mbind.
    unfold add_bullet at 1, add_item, on_report, mmodify.
    cbn [fr_creds fr_report title summary priority sections section_add].
    rewrite IH. now rewrite <- app_assoc.
Qed.

(** What a call of [generate_report] leaves: its argument as it was, and
    the report. *)
Lemma generate_report_frame_spec (creds : dict (list pyval)) (r0 : Report) :
  generate_report_body B {| fr_creds := creds; fr_report := r0 |}
  = (Return tt,
     {| fr_creds := creds;
        fr_report :=
          {| title := "Chrome Config Analyzer";
             summary := summary_of (List.length creds);
             priority := if dict_truthy creds then MEDIUM else LOW;
             sections :=
               [[Paragraph (summary_of (List.length creds))];
                if dict_truthy creds
                then Bullet 1 "Credentials:" :: map (site_bullet B) creds
                else [Bullet 1 "No saved credentials found"]] |} |}).
Proof.
  unfold generate_report_body.
  unfold mbind at 1 2 3 4 5 6 7.
  unfold new_Report, add_section, creds_len, set_summary, set_priority, creds_bool.
  unfold mbind at 1 2 3 4 5 6 7 8. unfold mget, on_report, mmodify, mret.
  cbn [fr_creds fr_report title summary priority sections Datatypes.app
         Datatypes.length].
  fold (summary_of (List.length creds)).
  destruct creds as [|kv creds].
  - reflexivity.
  - cbn [dict_truthy]. unfold mbind at 1 2 3.
    unfold set_priority, add_bullet at 1, add_item, creds_items, on_report,
      mmodify, mbind at 1, mget, mret.
    cbn [fr_creds fr_report title summary priority sections section_add
           Datatypes.app Datatypes.length].
    rewrite site_bullets_loop.
    reflexivity.
Qed.

End ReportFacts.

(** * The claims *)

(** ** Merging the mapping of a file into the aggregate *)

(** C1, where the code departs from the claim.  The claim: a site present
    in the aggregate and in the mapping of a file has, after the merge, its
    former list followed by the new one, and no username is lost.  The code
    merges with [dict.update]: the list of the file takes the place of the
    former one.  With file B giving [{x: [a, b]}] and file A, processed
    after it, giving [{x: [a]}], the aggregate after the loop is
    [{x: [a]}], not [{x: [a, b, a]}]: username [b] is lost, and the report
    of the job does not name it. *)
Theorem merge_replaces_shared_site :
  extraction Scenario.world (in_path Scenario.file_B)
  = Return [(Scenario.site_x, [PyStr "a"; PyStr "b"])]
  /\ extraction Scenario.world (in_path Scenario.file_A)
     = Return [(Scenario.site_x, [PyStr "a"])]
  /\ dict_update [(Scenario.site_x, [PyStr "a"; PyStr "b"])]
                 [(Scenario.site_x, [PyStr "a"])]
     = [(Scenario.site_x, [PyStr "a"])]
  /\ extracted_creds
       (snd (for_each [Scenario.file_B; Scenario.file_A]
               (process_file Runtime.cpython Scenario.world Scenario.platform (Some "/out"))
               job_start))
     = [(Scenario.site_x, [PyStr "a"])]
  /\ match fst (Scenario.run [Scenario.file_B; Scenario.file_A]) with
     | Return r =>
         map sections (res_task_report r)
         = [[[Paragraph "1 saved credentials found in Chrome Login Data"];
             [Bullet 1 "Credentials:";
              Bullet 2 "Site 'http://x.com' with users '['a']'"]]]
     | Raise _ => False
     end.
Proof.
  do 4 (split; [vm_compute; reflexivity|]).
  vm_compute. reflexivity.
Qed.

(** ** Failures of the database *)

(** C2, where the code departs from the claim.  The claim: for every path
    that is not a store, and every path that does not exist, the extractor
    returns the empty mapping and raises nothing.  The code calls
    [sqlite3.connect] before the [try]: for a path that cannot be opened
    (here one in a directory that does not exist) the [OperationalError] of
    the connection leaves the function, and the job with it. *)
Theorem unopenable_path_raises :
  Scenario.world (in_path Scenario.file_unopenable) = ConnectRaises OperationalError
  /\ _extract_chrome_creds Scenario.world (in_path Scenario.file_unopenable) job_start
     = (Raise OperationalError,
        after_events job_start [EvConnect (in_path Scenario.file_unopenable)])
  /\ fst (Scenario.run [Scenario.file_A; Scenario.file_unopenable; Scenario.file_B])
     = Raise OperationalError.
Proof.
  split; [reflexivity|]. split; vm_compute; reflexivity.
Qed.

(** C3 as stated fails: the descriptor [file_no_path] has no path, the
    attempt to open [None] fails, and the extraction raises the [TypeError]
    of the attempt instead of giving an empty result. *)
Lemma missing_path_not_tolerated :
  in_path Scenario.file_no_path = None
  /\ Scenario.world None = ConnectRaises TypeError
  /\ fst (_extract_chrome_creds Scenario.world (in_path Scenario.file_no_path) job_start)
     = Raise TypeError
  /\ fst (_extract_chrome_creds Scenario.world (in_path Scenario.file_no_path) job_start)
     <> Return []
  /\ fst (Scenario.run [Scenario.file_no_path]) = Raise TypeError.
Proof.
  split; [reflexivity|]. split; [reflexivity|].
  split; [vm_compute; reflexivity|].
  split; [vm_compute; discriminate | vm_compute; reflexivity].
Qed.

(** C3, amended.  For an input descriptor without a path the extractor is
    called with [None]; when the attempt to open [None] fails with an
    exception, nothing absorbs it: the extractor raises that exception; the
    turn of the loop for that file never completes, and raises that
    exception once the factory call before it has returned; no job that has
    such a descriptor among its input files returns a result; and a job
    whose loop reaches the descriptor (no turn before it fails, and the
    factory call for it returns) fails with that very exception.  The file
    gets no result, empty or not. *)
Theorem missing_path_failure_propagates (B : Builtins)
    (sqlite3_connect : option string -> connect_result) (P : Platform)
    (output_path workflow_id : option string)
    (f : InputFile) (e : exn) :
  in_path f = None ->
  sqlite3_connect None = ConnectRaises e ->
  (forall s, fst (_extract_chrome_creds sqlite3_connect (in_path f) s) = Raise e)
  /\ (forall s, fst (process_file B sqlite3_connect P output_path f s) <> Return tt)
  /\ (forall s,
        factory_failure P output_path (artifact_name f) REPORT_DATA_TYPE = None ->
        fst (process_file B sqlite3_connect P output_path f s) = Raise e)
  /\ (forall input_files s r,
        In f input_files ->
        fst (command B sqlite3_connect P output_path workflow_id input_files s)
        <> Return r)
  /\ (forall pre post s,
        first_failure B sqlite3_connect P output_path (numbered (next_uuid s) pre)
        = None ->
        factory_failure P output_path (artifact_name f) REPORT_DATA_TYPE = None ->
        fst (command B sqlite3_connect P output_path workflow_id (pre ++ f :: post) s)
        = Raise e).
Proof.
  intros Pf C. rewrite <- Pf in C.
  assert (X : extraction sqlite3_connect (in_path f) = Raise e).
  { unfold extraction. now rewrite (extract_connect_raises _ _ e). }
  assert (T : forall n,
            factory_failure P output_path (artifact_name f) REPORT_DATA_TYPE = None ->
            turn_failure B sqlite3_connect P output_path (n, f) = Some e).
  { intros n FF. unfold turn_failure. cbn [fst snd]. now rewrite FF, X. }
  split; [intros s; now rewrite extract_outcome|].
  split; [|split; [|split]].
  - intros s. rewrite process_file_outcome. unfold turn_failure. cbn [fst snd].
    destruct (factory_failure P output_path (artifact_name f) REPORT_DATA_TYPE);
      [discriminate|].
    rewrite X. discriminate.
  - intros s FF. rewrite process_file_outcome, (T _ FF). reflexivity.
  - intros input_files s r I H.
    apply command_returns_no_failure in H.
    apply no_failure_extractions in H. destruct H as [_ H].
    destruct (H f I) as [_ [d D]]. congruence.
  - intros pre post s NF FF.
    pose proof (command_outcome B sqlite3_connect P output_path workflow_id
                  (pre ++ f :: post) s) as O.
    rewrite numbered_app, first_failure_app, NF in O.
    cbn [numbered first_failure] in O. rewrite (T _ FF) in O. exact O.
Qed.

Lemma missing_path_failure_propagates_witness :
  (forall s,
     fst (_extract_chrome_creds Scenario.world (in_path Scenario.file_no_path) s)
     = Raise TypeError)
  /\ (forall s,
        fst (process_file Runtime.cpython Scenario.world Scenario.platform
               (Some "/out") Scenario.file_no_path s) <> Return tt)
  /\ (forall s,
        factory_failure Scenario.platform (Some "/out")
          (artifact_name Scenario.file_no_path) REPORT_DATA_TYPE = None ->
        fst (process_file Runtime.cpython Scenario.world Scenario.platform
               (Some "/out") Scenario.file_no_path s) = Raise TypeError)
  /\ (forall input_files s r,
        In Scenario.file_no_path input_files ->
        fst (command Runtime.cpython Scenario.world Scenario.platform (Some "/out")
               (Some "wf1") input_files s)
        <> Return r)
  /\ (forall pre post s,
        first_failure Runtime.cpython Scenario.world Scenario.platform (Some "/out")
          (numbered (next_uuid s) pre)
        = None ->
        factory_failure Scenario.platform (Some "/out")
          (artifact_name Scenario.file_no_path) REPORT_DATA_TYPE = None ->
        fst (command Runtime.cpython Scenario.world Scenario.platform (Some "/out")
               (Some "wf1") (pre ++ Scenario.file_no_path :: post) s)
        = Raise TypeError).
Proof.
  apply (missing_path_failure_propagates Runtime.cpython Scenario.world
           Scenario.platform (Some "/out") (Some "wf1") Scenario.file_no_path
           TypeError); reflexivity.
Defined.

(** A job that reaches the descriptor without a path after file A fails
    with the exception of its opening; a job that meets a path it cannot
    open first fails with that one. *)
Example missing_path_in_the_middle :
  fst (Scenario.run [Scenario.file_A; Scenario.file_no_path; Scenario.file_B])
  = Raise TypeError
  /\ fst (Scenario.run [Scenario.file_unopenable; Scenario.file_no_path])
     = Raise OperationalError.
Proof. split; vm_compute; reflexivity. Qed.

(** The test of the repository on a store with one login. *)
Example test_extract_chrome_creds :
  extraction (store_of [(PyStr "http://test.com", PyStr "testuser")] None)
             (Some "test_data/test_login_data.sqlite")
  = Return [(PyStr "http://test.com", [PyStr "testuser"])].
Proof. vm_compute. reflexivity. Qed.

(** A text file and a store without the table: the failure of the query is
    absorbed and the mapping is empty. *)
Example not_a_database_tolerated :
  extraction Scenario.world (Some "/in/notes.txt") = Return []
  /\ extraction Scenario.world (Some "/in/fresh") = Return [].
Proof. split; vm_compute; reflexivity. Qed.

(** ** Rows without a username *)

(** C4.  A row of the login table whose username is empty or absent
    contributes nothing to the result of the extractor: the result is the
    one of the store without that row.  A site all of whose rows have such
    usernames is not a key of the mapping returned. *)
Theorem empty_username_rows_ignored
    (sqlite3_connect : option string -> connect_result) (filepath : option string)
    (con : connection) (rows1 rows2 : list row) (r : row) (stop : option exn)
    (site : pyval) (s : Job) :
  sqlite3_connect filepath = Connected con ->
  con LOGINS_QUERY = {| fetched := rows1 ++ r :: rows2; failure := stop |} ->
  empty_or_absent (snd r) ->
  _extract_chrome_creds sqlite3_connect filepath s
  = _extract_chrome_creds (store_of (rows1 ++ rows2) stop) filepath s
  /\ ((forall u, In (site, u) (rows1 ++ r :: rows2) -> empty_or_absent u) ->
      forall d, fst (_extract_chrome_creds sqlite3_connect filepath s) = Return d ->
                dict_contains site d = false).
Proof.
  intros C Q E. apply truthy_empty_or_absent in E.
  assert (F : failure (con LOGINS_QUERY) = stop) by now rewrite Q.
  assert (R : fetched (con LOGINS_QUERY) = rows1 ++ r :: rows2) by now rewrite Q.
  split.
  - destruct stop as [e|].
    + rewrite (extract_query_raises _ _ con e) by assumption.
      rewrite (extract_query_raises _ _ (fun _ => {| fetched := rows1 ++ rows2;
                                                    failure := Some e |}) e)
        by reflexivity.
      cbn [fetched]. now rewrite R, fetch_loop_skip.
    + rewrite (extract_rows_read _ _ con) by assumption.
      rewrite (extract_rows_read _ _ (fun _ => {| fetched := rows1 ++ rows2;
                                                  failure := None |}))
        by reflexivity.
      cbn [fetched]. now rewrite R, fetch_loop_skip.
  - intros All d D.
    assert (K : d = fst (fetch_loop (rows1 ++ r :: rows2) stop [])).
    { destruct stop as [e|].
      - rewrite (extract_query_raises _ _ con e) in D by assumption.
        cbn [fst] in D. rewrite R in D.
        destruct (isinstance e DatabaseError); congruence.
      - rewrite (extract_rows_read _ _ con) in D by assumption.
        cbn [fst] in D. rewrite R in D. congruence. }
    unfold dict_contains. destruct (dict_get site d) as [l|] eqn:G; [|reflexivity].
    exfalso.
    assert (I : In site (dict_keys d)).
    { apply dict_get_In in G. change site with (fst (site, l)). now apply in_map. }
    rewrite K in I. apply fetch_loop_keys in I.
    destruct I as [[]|[u [I T]]].
    apply All, truthy_empty_or_absent in I. congruence.
Qed.

Lemma empty_username_rows_ignored_witness :
  _extract_chrome_creds Scenario.world (Some "/in/B") job_start
  = _extract_chrome_creds
      (store_of ([(Scenario.site_x, PyStr "a")]
                 ++ [(Scenario.site_x, PyStr "b"); (Scenario.site_x, PyStr "")])
                None)
      (Some "/in/B") job_start
  /\ ((forall u,
         In (PyStr "http://y.com", u)
            ([(Scenario.site_x, PyStr "a")]
             ++ (PyStr "http://y.com", PyNone)
                :: [(Scenario.site_x, PyStr "b"); (Scenario.site_x, PyStr "")]) ->
         empty_or_absent u) ->
      forall d,
        fst (_extract_chrome_creds Scenario.world (Some "/in/B") job_start) = Return d ->
        dict_contains (PyStr "http://y.com") d = false).
Proof.
  apply (empty_username_rows_ignored Scenario.world (Some "/in/B")
           (Scenario.rows_of
              [(Scenario.site_x, PyStr "a"); (PyStr "http://y.com", PyNone);
               (Scenario.site_x, PyStr "b"); (Scenario.site_x, PyStr "")])
           [(Scenario.site_x, PyStr "a")]
           [(Scenario.site_x, PyStr "b"); (Scenario.site_x, PyStr "")]
           (PyStr "http://y.com", PyNone) None (PyStr "http://y.com") job_start).
  - reflexivity.
  - reflexivity.
  - left. reflexivity.
Defined.

(** ** The final pass *)

Lemma dict_get_dedup (B : Builtins) (k : pyval) (d : dict (list pyval)) :
  dict_get k (map (dedup_item B) d) = option_map (list_of_set B) (dict_get k d).
Proof.
  induction d as [|[k0 v0] d IH]; simpl; [reflexivity|].
  destruct (pyval_eqb k k0); [reflexivity | assumption].
Qed.

(** C5.  When the task returns, the loop over the input files has returned
    with an aggregate, and the final pass has replaced the list of every
    site of that aggregate by a list of the same usernames in which each
    occurs once; the sites are the same, each once, and the report of the
    job is made from this final mapping. *)
Theorem final_pass_deduplicates (B : Builtins)
    (sqlite3_connect : option string -> connect_result) (P : Platform)
    (output_path workflow_id : option string)
    (input_files : list InputFile) (s s' : Job) (r : TaskResult) :
  command B sqlite3_connect P output_path workflow_id input_files s = (Return r, s') ->
  exists s1,
    for_each input_files (process_file B sqlite3_connect P output_path) (loop_entry s)
    = (Return tt, s1)
    /\ res_task_report r = [generate_report B (extracted_creds s')]
    /\ dict_keys (extracted_creds s') = dict_keys (extracted_creds s1)
    /\ NoDup (dict_keys (extracted_creds s'))
    /\ forall site users,
         dict_get site (extracted_creds s1) = Some users ->
         exists users',
           dict_get site (extracted_creds s') = Some users'
           /\ NoDup users'
           /\ forall u, In u users' <-> In u users.
Proof.
  rewrite command_spec.
  destruct (for_each input_files _ (loop_entry s)) as [[u|e] s1] eqn:L;
    [|discriminate].
  destruct u. cbv zeta. intros [= <- <-]. exists s1.
  pose proof (loop_returns _ _ _ _ _ _ _ L) as (_ & _ & ND).
  specialize (ND (NoDup_nil _)).
  cbn [res_task_report extracted_creds with_creds].
  split; [reflexivity|]. split; [reflexivity|].
  split; [|split].
  - apply dedup_item_keys.
  - now rewrite dedup_item_keys.
  - intros site users G. exists (list_of_set B users).
    rewrite dict_get_dedup, G. split; [reflexivity|].
    split; [apply list_of_set_NoDup | apply list_of_set_In].
Qed.

Lemma final_pass_deduplicates_witness :
  exists s1,
    for_each Scenario.job1 (process_file Runtime.cpython Scenario.world Scenario.platform (Some "/out"))
      (loop_entry job_start)
    = (Return tt, s1)
    /\ res_task_report Scenario.result1
       = [generate_report Runtime.cpython (extracted_creds Scenario.state1)]
    /\ dict_keys (extracted_creds Scenario.state1) = dict_keys (extracted_creds s1)
    /\ NoDup (dict_keys (extracted_creds Scenario.state1))
    /\ forall site users,
         dict_get site (extracted_creds s1) = Some users ->
         exists users',
           dict_get site (extracted_creds Scenario.state1) = Some users'
           /\ NoDup users'
           /\ forall u, In u users' <-> In u users.
Proof.
  apply (final_pass_deduplicates Runtime.cpython Scenario.world Scenario.platform (Some "/out")
           (Some "wf1") Scenario.job1 job_start Scenario.state1 Scenario.result1).
  vm_compute. reflexivity.
Defined.

(** ** The report *)

(** C6.  The report of the empty mapping has priority LOW, the summary
    "0 saved credentials found in Chrome Login Data", and a details section
    that holds the one bullet "No saved credentials found". *)
Theorem generate_report_empty (B : Builtins) :
  priority (generate_report B []) = LOW
  /\ summary (generate_report B []) = "0 saved credentials found in Chrome Login Data"
  /\ sections (generate_report B [])
     = [[Paragraph "0 saved credentials found in Chrome Login Data"];
        [Bullet 1 "No saved credentials found"]].
Proof. repeat split; reflexivity. Qed.

(** C7.  The report of a mapping that is not empty has priority MEDIUM; its
    summary is the number of sites (of keys, not of usernames) followed by
    " saved credentials found in Chrome Login Data"; its details section is
    the bullet "Credentials:" followed, for every site in the order of the
    mapping, by a bullet of level 2 that reads
    Site '<site>' with users '<repr of the list of usernames>'. *)
Theorem generate_report_nonempty (B : Builtins) (creds : dict (list pyval)) :
  creds <> [] ->
  priority (generate_report B creds) = MEDIUM
  /\ summary (generate_report B creds)
     = (str_of_nat (List.length creds)
        ++ " saved credentials found in Chrome Login Data")%string
  /\ sections (generate_report B creds)
     = [[Paragraph (summary (generate_report B creds))];
        Bullet 1 "Credentials:"
        :: map (fun kv =>
                  Bullet 2 ("Site '" ++ py_str B (fst kv) ++ "' with users '"
                            ++ repr_list B (snd kv) ++ "'")%string)
               creds].
Proof.
  intros N. unfold generate_report, generate_report_frame.
  rewrite generate_report_frame_spec. cbn [snd fr_report priority summary sections].
  destruct creds as [|kv creds]; [contradiction|].
  repeat split; reflexivity.
Qed.

Lemma generate_report_nonempty_witness :
  priority (generate_report Runtime.cpython Scenario.TWO_CREDENTIALS) = MEDIUM
  /\ summary (generate_report Runtime.cpython Scenario.TWO_CREDENTIALS)
     = (str_of_nat (List.length Scenario.TWO_CREDENTIALS)
        ++ " saved credentials found in Chrome Login Data")%string
  /\ sections (generate_report Runtime.cpython Scenario.TWO_CREDENTIALS)
     = [[Paragraph (summary (generate_report Runtime.cpython Scenario.TWO_CREDENTIALS))];
        Bullet 1 "Credentials:"
        :: map (fun kv =>
                  Bullet 2 ("Site '" ++ py_str Runtime.cpython (fst kv)
                            ++ "' with users '"
                            ++ repr_list Runtime.cpython (snd kv) ++ "'")%string)
               Scenario.TWO_CREDENTIALS].
Proof.
  apply (generate_report_nonempty Runtime.cpython Scenario.TWO_CREDENTIALS).
  discriminate.
Defined.

(** The test of the repository on the report of two sites. *)
Example test_report :
  let report := generate_report Runtime.cpython Scenario.TWO_CREDENTIALS in
  priority report = MEDIUM
  /\ summary report = "2 saved credentials found in Chrome Login Data"
  /\ sections report
     = [[Paragraph "2 saved credentials found in Chrome Login Data"];
        [Bullet 1 "Credentials:";
         Bullet 2 "Site 'http://test.com' with users '['testuser']'";
         Bullet 2 "Site 'http://example.com' with users '['exampleuser', 'admin']'"]].
Proof. repeat split; reflexivity. Qed.

(** C9.  A call of [generate_report] raises nothing and leaves its argument
    as it was: the mapping after the call is the mapping before it.  The
    report depends on the mapping alone, not on the report object that was
    there before, and a second call on the mapping as the first one left it
    gives an equal report. *)
Theorem generate_report_pure (B : Builtins) (creds : dict (list pyval)) (r0 : Report) :
  let out := generate_report_body B {| fr_creds := creds; fr_report := r0 |} in
  fst out = Return tt
  /\ fr_creds (snd out) = creds
  /\ fr_report (snd out) = generate_report B creds
  /\ generate_report B (fr_creds (generate_report_frame B creds))
     = generate_report B creds.
Proof.
  unfold generate_report, generate_report_frame.
  rewrite !generate_report_frame_spec.
  cbn [fst snd fr_creds fr_report]. repeat split.
Qed.

(** ** Output files *)

Lemma numbered_ge (base n : nat) (f : InputFile) (files : list InputFile) :
  In (n, f) (numbered base files) -> base <= n.
Proof.
  revert base. induction files as [|x files IH]; intros base; simpl; [tauto|].
  intros [[= <- _]|H]; [lia|]. apply IH in H. lia.
Qed.

(** An identifier numbers one file. *)
Lemma numbered_functional (base n : nat) (f f' : InputFile) (files : list InputFile) :
  In (n, f) (numbered base files) -> In (n, f') (numbered base files) -> f = f'.
Proof.
  revert base. induction files as [|x files IH]; intros base; simpl; [tauto|].
  intros [[= E1 E2]|H1] [[= E3 E4]|H2].
  - congruence.
  - apply numbered_ge in H2. lia.
  - apply numbered_ge in H1. lia.
  - eauto.
Qed.

Lemma numbered_In (base n : nat) (f : InputFile) (files : list InputFile) :
  In (n, f) (numbered base files) -> In f files.
Proof.
  revert base. induction files as [|x files IH]; intros base; simpl; [tauto|].
  intros [[= _ <-]|H]; [now left | right; eauto].
Qed.

(** C8.  When the job returns, its list of output files holds, in the order
    of the input files, the descriptor of every input file whose extraction
    gave a mapping that is not empty, and nothing else: the descriptor of a
    file is in the list if and only if that file gave credentials.  Each
    descriptor bears the display name of its input file followed by
    "-chromecreds.dict". *)
Theorem artifacts_of_files_with_creds (B : Builtins)
    (sqlite3_connect : option string -> connect_result) (P : Platform)
    (output_path workflow_id : option string)
    (input_files : list InputFile) (s : Job) (r : TaskResult) :
  fst (command B sqlite3_connect P output_path workflow_id input_files s) = Return r ->
  res_output_files r
  = map (fun nf => artifact_of output_path (fst nf) (snd nf))
        (filter (fun nf => yields_creds sqlite3_connect (snd nf))
                (numbered (next_uuid s) input_files))
  /\ (forall n f,
        In (n, f) (numbered (next_uuid s) input_files) ->
        (In (artifact_of output_path n f) (res_output_files r)
         <-> yields_creds sqlite3_connect f = true))
  /\ (forall a,
        In a (res_output_files r) ->
        exists f,
          In f input_files
          /\ yields_creds sqlite3_connect f = true
          /\ of_display_name a
             = (str_of_field (in_display_name f) ++ "-chromecreds.dict")%string)
  /\ (forall n f name,
        in_display_name f = Some name ->
        of_display_name (artifact_of output_path n f)
        = (name ++ "-chromecreds.dict")%string).
Proof.
  rewrite command_spec.
  destruct (for_each input_files _ (loop_entry s)) as [[u|e] s1] eqn:L;
    [|discriminate].
  destruct u. cbv zeta. cbn [fst]. intros [= <-]. cbn [res_output_files].
  pose proof (loop_returns _ _ _ _ _ _ _ L) as (_ & O & _).
  cbn [loop_entry output_files next_uuid Datatypes.app] in O.
  split; [exact O|]. rewrite O. split; [|split].
  - intros n f I. split.
    + intros A. apply in_map_iff in A. destruct A as [[n' f'] [E A]].
      apply filter_In in A. destruct A as [I' Y]. cbn [fst snd] in *.
      unfold artifact_of in E. injection E as -> _.
      now rewrite (numbered_functional _ _ _ _ _ I I').
    + intros Y. apply in_map_iff. exists (n, f). split; [reflexivity|].
      apply filter_In. auto.
  - intros a A. apply in_map_iff in A. destruct A as [[n f] [<- A]].
    apply filter_In in A. destruct A as [I Y]. exists f.
    split; [eapply numbered_In; eassumption|]. split; [exact Y | reflexivity].
  - intros n f name D. unfold artifact_of, artifact_name.
    cbn [of_display_name]. now rewrite D.
Qed.

Lemma artifacts_of_files_with_creds_witness :
  res_output_files Scenario.result1
  = map (fun nf => artifact_of (Some "/out") (fst nf) (snd nf))
        (filter (fun nf => yields_creds Scenario.world (snd nf))
                (numbered (next_uuid job_start) Scenario.job1))
  /\ (forall n f,
        In (n, f) (numbered (next_uuid job_start) Scenario.job1) ->
        (In (artifact_of (Some "/out") n f) (res_output_files Scenario.result1)
         <-> yields_creds Scenario.world f = true))
  /\ (forall a,
        In a (res_output_files Scenario.result1) ->
        exists f,
          In f Scenario.job1
          /\ yields_creds Scenario.world f = true
          /\ of_display_name a
             = (str_of_field (in_display_name f) ++ "-chromecreds.dict")%string)
  /\ (forall n f name,
        in_display_name f = Some name ->
        of_display_name (artifact_of (Some "/out") n f)
        = (name ++ "-chromecreds.dict")%string).
Proof.
  apply (artifacts_of_files_with_creds Runtime.cpython Scenario.world Scenario.platform
           (Some "/out") (Some "wf1") Scenario.job1 job_start Scenario.result1).
  vm_compute. reflexivity.
Defined.

(** The job of three files records two output files, those of A and B. *)
Example two_artifacts_of_three_files :
  map of_display_name (res_output_files Scenario.result1)
  = ["A-chromecreds.dict"; "B-chromecreds.dict"].
Proof. reflexivity. Qed.

(** ** The factory *)

Lemma made_descriptors_app (l1 l2 : list event) :
  made_descriptors (l1 ++ l2) = made_descriptors l1 ++ made_descriptors l2.
Proof.
  induction l1 as [|e l1 IH]; [reflexivity|].
  destruct e; simpl; now rewrite IH.
Qed.

Lemma opened_files_app (l1 l2 : list event) :
  opened_files (l1 ++ l2) = opened_files l1 ++ opened_files l2.
Proof.
  induction l1 as [|e l1 IH]; [reflexivity|].
  destruct e; simpl; now rewrite IH.
Qed.

Lemma written_texts_app (l1 l2 : list event) :
  written_texts (l1 ++ l2) = written_texts l1 ++ written_texts l2.
Proof.
  induction l1 as [|e l1 IH]; [reflexivity|].
  destruct e; simpl; now rewrite IH.
Qed.

Section TurnEvents.
Variable B : Builtins.
Variable sqlite3_connect : option string -> connect_result.
Variable P : Platform.
Variable output_path : option string.
Variable workflow_id : option string.

Let events := file_events B sqlite3_connect P output_path.
Let artifact (nf : nat * InputFile) := artifact_of output_path (fst nf) (snd nf).
Let yields (nf : nat * InputFile) := yields_creds sqlite3_connect (snd nf).

Lemma connect_events_shape (filepath : option string) :
  exists rest,
    connect_events sqlite3_connect filepath = EvConnect filepath :: rest
    /\ made_descriptors rest = [] /\ opened_files rest = []
    /\ written_texts rest = [].
Proof.
  unfold connect_events. eexists. split; [reflexivity|].
  destruct (sqlite3_connect filepath) as [e|con]; [repeat split|].
  destruct (failure (con LOGINS_QUERY)); repeat split.
Qed.

Lemma block_events_made (a : OutputFile) (d : dict (list pyval)) :
  made_descriptors (block_events B P a d) = [].
Proof.
  unfold block_events. destruct (dict_truthy d); [|reflexivity].
  destruct (open_failure P a); [reflexivity|].
  destruct (write_failure P a (repr_dict B d)); reflexivity.
Qed.

(** The block opens a file only for a mapping that is not empty. *)
Lemma block_events_empty (a : OutputFile) (d : dict (list pyval)) :
  dict_truthy d = false -> block_events B P a d = [].
Proof. unfold block_events. now intros ->. Qed.

(** A block that does not fail opens the file and writes the text. *)
Lemma block_events_done (a : OutputFile) (d : dict (list pyval)) :
  block_failure B P a d = None ->
  block_events B P a d
  = if dict_truthy d then [EvOpen a; EvWrite a (repr_dict B d)] else [].
Proof.
  unfold block_failure, block_events. destruct (dict_truthy d); [|reflexivity].
  destruct (open_failure P a); [discriminate|]. now intros ->.
Qed.

(** The events of a turn: none when the factory raises; else the making
    of the descriptor, then the connection, then no other making, and no
    opening when the extraction gives no credentials. *)
Lemma file_events_shape (nf : nat * InputFile) :
  match factory_failure P output_path (artifact_name (snd nf)) REPORT_DATA_TYPE with
  | Some _ => events nf = []
  | None =>
      exists rest,
        events nf
        = EvCreateOutputFile (artifact nf) :: EvConnect (in_path (snd nf)) :: rest
        /\ made_descriptors rest = []
        /\ (yields nf = false -> opened_files rest = [])
  end.
Proof.
  unfold events, file_events, yields, yields_creds.
  destruct (factory_failure P output_path (artifact_name (snd nf)) REPORT_DATA_TYPE);
    [reflexivity|].
  destruct (connect_events_shape (in_path (snd nf))) as (rest & -> & M & O & _).
  eexists. split; [reflexivity|].
  rewrite made_descriptors_app, opened_files_app, M, O. cbn [Datatypes.app].
  destruct (extraction sqlite3_connect (in_path (snd nf))) as [d|e].
  - split; [apply block_events_made|]. intros Y. now rewrite block_events_empty.
  - split; reflexivity.
Qed.

(** The events of a turn that does not fail. *)
Lemma file_events_done (nf : nat * InputFile) :
  turn_failure B sqlite3_connect P output_path nf = None ->
  made_descriptors (events nf) = [artifact nf]
  /\ opened_files (events nf) = (if yields nf then [artifact nf] else [])
  /\ written_texts (events nf)
     = (if yields nf
        then [(artifact nf, repr_dict B (creds_of sqlite3_connect (snd nf)))]
        else []).
Proof.
  unfold turn_failure, events, file_events, yields, yields_creds, creds_of.
  destruct (factory_failure P output_path (artifact_name (snd nf)) REPORT_DATA_TYPE);
    [discriminate|].
  destruct (connect_events_shape (in_path (snd nf))) as (rest & -> & M & O & W).
  destruct (extraction sqlite3_connect (in_path (snd nf))) as [d|e]; [|discriminate].
  intros BF. rewrite (block_events_done _ _ BF).
  cbn [made_descriptors opened_files written_texts Datatypes.app].
  rewrite made_descriptors_app, opened_files_app, written_texts_app, M, O, W.
  cbn [Datatypes.app]. fold (artifact nf).
  destruct (dict_truthy d); repeat split.
Qed.

Lemma first_failure_None (l : list (nat * InputFile)) :
  first_failure B sqlite3_connect P output_path l = None ->
  reached B sqlite3_connect P output_path l = l
  /\ forall nf, In nf l -> turn_failure B sqlite3_connect P output_path nf = None.
Proof.
  induction l as [|nf l IH]; cbn [first_failure reached].
  - intros _. split; [reflexivity | intros nf []].
  - destruct (turn_failure B sqlite3_connect P output_path nf) eqn:TF; [discriminate|].
    intros H. destruct (IH H) as [R A]. rewrite R. split; [reflexivity|].
    intros nf' [<-|I]; auto.
Qed.

(** The events of turns of which none fails. *)
Lemma events_done (l : list (nat * InputFile)) :
  (forall nf, In nf l -> turn_failure B sqlite3_connect P output_path nf = None) ->
  made_descriptors (List.concat (map events l)) = map artifact l
  /\ opened_files (List.concat (map events l)) = map artifact (filter yields l)
  /\ written_texts (List.concat (map events l))
     = map (fun nf => (artifact nf, repr_dict B (creds_of sqlite3_connect (snd nf))))
           (filter yields l).
Proof.
  induction l as [|nf l IH]; intros A; [repeat split|].
  cbn [map List.concat filter].
  rewrite made_descriptors_app, opened_files_app, written_texts_app.
  destruct (file_events_done nf (A nf (or_introl eq_refl))) as (M & O & W).
  destruct IH as (M' & O' & W'); [intros nf' I; apply A; now right|].
  rewrite M, O, W, M', O', W'.
  destruct (yields nf); repeat split.
Qed.

(** Whatever its outcome, the task leaves the events of the files its loop
    reached. *)
Lemma command_trace (input_files : list InputFile) (s : Job) :
  trace (snd (command B sqlite3_connect P output_path workflow_id input_files s))
  = trace s
    ++ List.concat
         (map events
              (reached B sqlite3_connect P output_path
                 (numbered (next_uuid s) input_files))).
Proof.
  rewrite command_spec.
  pose proof (loop_trace B sqlite3_connect P output_path input_files (loop_entry s))
    as L.
  destruct (for_each input_files _ (loop_entry s)) as [[u|e] s1]; exact L.
Qed.

(** The task that returns: what it made, opened and wrote. *)
Lemma command_returns_events (input_files : list InputFile) (s : Job)
    (r : TaskResult) :
  fst (command B sqlite3_connect P output_path workflow_id input_files s) = Return r ->
  let tr :=
    trace (snd (command B sqlite3_connect P output_path workflow_id input_files s)) in
  res_output_files r
  = map artifact (filter yields (numbered (next_uuid s) input_files))
  /\ made_descriptors tr
     = made_descriptors (trace s) ++ map artifact (numbered (next_uuid s) input_files)
  /\ opened_files tr = opened_files (trace s) ++ res_output_files r
  /\ written_texts tr
     = written_texts (trace s)
       ++ map (fun nf => (artifact nf, repr_dict B (creds_of sqlite3_connect (snd nf))))
              (filter yields (numbered (next_uuid s) input_files)).
Proof.
  intros H. cbv zeta. rewrite command_trace.
  pose proof (command_returns_no_failure _ _ _ _ _ _ _ _ H) as NF.
  destruct (first_failure_None _ NF) as [R A]. rewrite R.
  destruct (events_done _ A) as (M & O & W).
  rewrite made_descriptors_app, opened_files_app, written_texts_app, M, O, W.
  assert (F : res_output_files r
              = map artifact (filter yields (numbered (next_uuid s) input_files))).
  { revert H. rewrite command_spec.
    destruct (for_each input_files _ (loop_entry s)) as [[u|e] s1] eqn:L;
      [|discriminate].
    destruct u. cbv zeta. cbn [fst]. intros [= <-]. cbn [res_output_files].
    pose proof (loop_returns _ _ _ _ _ _ _ L) as (_ & O1 & _).
    cbn [loop_entry output_files next_uuid Datatypes.app] in O1. exact O1. }
  rewrite F. repeat split.
Qed.

End TurnEvents.

(** C10 as stated fails: the text file gives no credentials; the factory
    makes a descriptor for it, named after it, before the extraction, and
    the descriptor is in no list; but no output file is opened for it: none
    is created, none is left behind. *)
Lemma no_file_left_without_credentials :
  yields_creds Scenario.world Scenario.file_notes = false
  /\ match Scenario.run [Scenario.file_notes] with
     | (Return r, s) =>
         res_output_files r = []
         /\ trace s
            = [EvCreateOutputFile (artifact_of (Some "/out") 0 Scenario.file_notes);
               EvConnect (in_path Scenario.file_notes)]
         /\ map of_display_name (made_descriptors (trace s))
            = ["notes.txt-chromecreds.dict"]
         /\ opened_files (trace s) = []
         /\ written_texts (trace s) = []
     | (Raise _, _) => False
     end.
Proof. split; vm_compute; [reflexivity | repeat split]. Qed.

(** C10, amended.  In every turn of the loop the factory of output files is
    called first: when it returns, the turn begins with the making of the
    descriptor named after the input file, which comes before the
    connection of the extraction and whatever that extraction gives, and
    no other descriptor is made in the turn.  The loop runs a turn for every
    input file up to the first turn that fails, so for every input file
    when the job returns: then one descriptor was made per input file, in
    order.  The factory makes the descriptor only.  The file is opened for
    writing only when the mapping is not empty: the files opened are those
    of the list of output files, the descriptor of an input file without
    credentials is in no list, and no output file is opened for it, so
    none is left behind. *)
Theorem factory_called_for_every_file (B : Builtins)
    (sqlite3_connect : option string -> connect_result) (P : Platform)
    (output_path workflow_id : option string)
    (input_files : list InputFile) (s : Job) :
  let out := command B sqlite3_connect P output_path workflow_id input_files s in
  (forall nf,
     match factory_failure P output_path (artifact_name (snd nf)) REPORT_DATA_TYPE with
     | Some _ => file_events B sqlite3_connect P output_path nf = []
     | None =>
         exists rest,
           file_events B sqlite3_connect P output_path nf
           = EvCreateOutputFile (artifact_of output_path (fst nf) (snd nf))
             :: EvConnect (in_path (snd nf)) :: rest
           /\ made_descriptors rest = []
           /\ (yields_creds sqlite3_connect (snd nf) = false -> opened_files rest = [])
     end)
  /\ trace (snd out)
     = trace s
       ++ List.concat
            (map (file_events B sqlite3_connect P output_path)
                 (reached B sqlite3_connect P output_path
                    (numbered (next_uuid s) input_files)))
  /\ (forall r,
        fst out = Return r ->
        reached B sqlite3_connect P output_path (numbered (next_uuid s) input_files)
        = numbered (next_uuid s) input_files
        /\ made_descriptors (trace (snd out))
           = made_descriptors (trace s)
             ++ map (fun nf => artifact_of output_path (fst nf) (snd nf))
                    (numbered (next_uuid s) input_files)
        /\ res_output_files r
           = map (fun nf => artifact_of output_path (fst nf) (snd nf))
                 (filter (fun nf => yields_creds sqlite3_connect (snd nf))
                         (numbered (next_uuid s) input_files))
        /\ opened_files (trace (snd out)) = opened_files (trace s) ++ res_output_files r).
Proof.
  cbv zeta. split; [intros nf; apply file_events_shape|].
  split; [apply command_trace|].
  intros r H.
  pose proof (command_returns_no_failure _ _ _ _ _ _ _ _ H) as NF.
  destruct (first_failure_None _ _ _ _ _ NF) as [R _].
  destruct (command_returns_events _ _ _ _ _ _ _ _ H) as (F & M & O & _).
  auto.
Qed.

Lemma factory_called_for_every_file_witness :
  reached Runtime.cpython Scenario.world Scenario.platform (Some "/out")
    (numbered (next_uuid job_start) Scenario.job1)
  = numbered (next_uuid job_start) Scenario.job1
  /\ made_descriptors
       (trace (snd (command Runtime.cpython Scenario.world Scenario.platform
                      (Some "/out") (Some "wf1") Scenario.job1 job_start)))
     = made_descriptors (trace job_start)
       ++ map (fun nf => artifact_of (Some "/out") (fst nf) (snd nf))
              (numbered (next_uuid job_start) Scenario.job1)
  /\ res_output_files Scenario.result1
     = map (fun nf => artifact_of (Some "/out") (fst nf) (snd nf))
           (filter (fun nf => yields_creds Scenario.world (snd nf))
                   (numbered (next_uuid job_start) Scenario.job1))
  /\ opened_files
       (trace (snd (command Runtime.cpython Scenario.world Scenario.platform
                      (Some "/out") (Some "wf1") Scenario.job1 job_start)))
     = opened_files (trace job_start) ++ res_output_files Scenario.result1.
Proof.
  apply (factory_called_for_every_file Runtime.cpython Scenario.world
           Scenario.platform (Some "/out") (Some "wf1") Scenario.job1 job_start).
  vm_compute. reflexivity.
Defined.

(** The job of three files makes three descriptors, opens two files and
    records these two. *)
Example three_descriptors_two_files :
  map of_display_name (made_descriptors (trace Scenario.state1))
  = ["A-chromecreds.dict"; "notes.txt-chromecreds.dict"; "B-chromecreds.dict"]
  /\ map of_display_name (opened_files (trace Scenario.state1))
     = ["A-chromecreds.dict"; "B-chromecreds.dict"]
  /\ map of_display_name (output_files Scenario.state1)
     = ["A-chromecreds.dict"; "B-chromecreds.dict"].
Proof. repeat split. Qed.

(** With no output directory the factory raises in the first turn: the job
    fails before any extraction.  With a directory that is not there the
    opening raises, after the factory and the extraction. *)
Example failures_outside_the_extraction :
  command Runtime.cpython Scenario.world Scenario.platform None (Some "wf1")
    [Scenario.file_A] job_start
  = (Raise TypeError, job_start)
  /\ fst (command Runtime.cpython Scenario.world Scenario.platform (Some "/missing")
            (Some "wf1") [Scenario.file_A; Scenario.file_B] job_start)
     = Raise OSError
  /\ opened_files
       (trace (snd (command Runtime.cpython Scenario.world Scenario.platform
                      (Some "/missing") (Some "wf1")
                      [Scenario.file_A; Scenario.file_B] job_start)))
     = [].
Proof. repeat split; vm_compute; reflexivity. Qed.

(** * Further properties of the code *)

(** ** What the extractor returns *)

Lemma fetch_loop_any_stop (rows : list row) (stop stop' : option exn)
    (ret : dict (list pyval)) :
  fst (fetch_loop rows stop ret) = fst (fetch_loop rows stop' ret).
Proof.
  revert ret. induction rows as [|r rows IH]; intros ret; simpl; [reflexivity|].
  destruct (negb (truthy (snd r))); [apply IH|].
  destruct (dict_get (fst r) _); [apply IH | reflexivity].
Qed.

(** The list of a site after the loop: the one it had, followed by the
    usernames the rows give to it. *)
Lemma fetch_loop_get (rows : list row) (stop : option exn)
    (ret : dict (list pyval)) (site : pyval) :
  dict_get site (fst (fetch_loop rows stop ret))
  = match dict_get site ret, usernames_of site rows with
    | None, [] => None
    | None, us => Some us
    | Some l, us => Some (l ++ us)
    end.
Proof.
  revert ret. induction rows as [|[k u] rows IH]; intros ret.
  - simpl. destruct (dict_get site ret); [now rewrite app_nil_r | reflexivity].
  - cbn [fetch_loop fst snd]. unfold usernames_of. cbn [filter fst snd].
    destruct (truthy u) eqn:T; cbn [negb andb].
    + unfold dict_contains.
      destruct (dict_get k ret) as [l0|] eqn:G; cbn [negb].
      * rewrite G. rewrite IH. fold (usernames_of site rows).
        key_cases k site.
        -- rewrite dict_get_set_same, G. cbn [map snd].
           now rewrite <- app_assoc.
        -- rewrite dict_get_set_other
             by (intros ->; rewrite pyval_eqb_refl in E; discriminate).
           reflexivity.
      * rewrite dict_get_set_same. rewrite IH. fold (usernames_of site rows).
        key_cases k site.
        -- rewrite dict_get_set_same, G. reflexivity.
        -- rewrite !dict_get_set_other
             by (intros ->; rewrite pyval_eqb_refl in E; discriminate).
           reflexivity.
    + rewrite IH. reflexivity.
Qed.

Lemma fetch_loop_NoDup (rows : list row) (stop : option exn)
    (ret : dict (list pyval)) :
  NoDup (dict_keys ret) -> NoDup (dict_keys (fst (fetch_loop rows stop ret))).
Proof.
  revert ret. induction rows as [|[k u] rows IH]; intros ret ND; simpl; [assumption|].
  destruct (truthy u); simpl; [|now apply IH].
  unfold dict_contains.
  destruct (dict_get k ret) as [l0|] eqn:G; simpl.
  - rewrite G. apply IH. now apply dict_set_NoDup.
  - rewrite dict_get_set_same. apply IH. now do 2 apply dict_set_NoDup.
Qed.

Lemma existsb_key (k : pyval) (l : list pyval) :
  existsb (pyval_eqb k) l = true <-> In k l.
Proof.
  rewrite existsb_exists. split.
  - intros [x [I E]]. apply pyval_eqb_eq in E. now subst.
  - intros I. exists k. split; [assumption | apply pyval_eqb_refl].
Qed.

(** [first_seen] looks at [seen] as a set. *)
Lemma first_seen_ext (l seen seen' : list pyval) :
  (forall k, In k seen <-> In k seen') -> first_seen seen l = first_seen seen' l.
Proof.
  revert seen seen'. induction l as [|k l IH]; intros seen seen' H; simpl; [reflexivity|].
  assert (E : existsb (pyval_eqb k) seen = existsb (pyval_eqb k) seen').
  { destruct (existsb (pyval_eqb k) seen) eqn:E1, (existsb (pyval_eqb k) seen') eqn:E2;
      try reflexivity.
    - apply existsb_key, H, existsb_key in E1. congruence.
    - apply existsb_key, H, existsb_key in E2. congruence. }
  rewrite E. destruct (existsb (pyval_eqb k) seen').
  - now apply IH.
  - f_equal. apply IH. intros k'. simpl. now rewrite H.
Qed.

(** The keys after the loop: those there were, then the new sites in the
    order of their first row with a username. *)
Lemma fetch_loop_key_order (rows : list row) (stop : option exn)
    (ret : dict (list pyval)) :
  dict_keys (fst (fetch_loop rows stop ret))
  = dict_keys ret ++ first_seen (dict_keys ret) (sites_with_username rows).
Proof.
  revert ret. induction rows as [|[k u] rows IH]; intros ret.
  - simpl. now rewrite app_nil_r.
  - cbn [fetch_loop fst snd]. unfold sites_with_username. cbn [filter snd].
    destruct (truthy u) eqn:T; cbn [negb map fst first_seen].
    + fold (sites_with_username rows). unfold dict_contains.
      destruct (dict_get k ret) as [l0|] eqn:G; cbn [negb].
      * assert (I : In k (dict_keys ret)).
        { apply dict_get_In in G. change k with (fst (k, l0)). now apply in_map. }
        rewrite G, IH, dict_keys_set_present by assumption.
        apply existsb_key in I. now rewrite I.
      * assert (N : ~ In k (dict_keys ret)) by now apply dict_get_None.
        rewrite dict_get_set_same, IH.
        rewrite dict_keys_set_present
          by (rewrite dict_keys_set_new by assumption; apply in_or_app; right; now left).
        rewrite dict_keys_set_new by assumption.
        destruct (existsb (pyval_eqb k) (dict_keys ret)) eqn:X.
        -- apply existsb_key in X. contradiction.
        -- rewrite <- app_assoc. cbn [Datatypes.app]. do 2 f_equal.
           apply first_seen_ext. intros k'. rewrite in_app_iff. simpl. tauto.
    + fold (sites_with_username rows). apply IH.
Qed.

(** An extraction that returns comes from a connection, and returns what
    the loop over its rows built. *)
Lemma extraction_Return_inv (sqlite3_connect : option string -> connect_result)
    (filepath : option string) (d : dict (list pyval)) :
  extraction sqlite3_connect filepath = Return d ->
  exists con,
    sqlite3_connect filepath = Connected con
    /\ d = fst (fetch_loop (fetched (con LOGINS_QUERY)) None []).
Proof.
  unfold extraction. intros H.
  destruct (sqlite3_connect filepath) as [e|con] eqn:C.
  - rewrite (extract_connect_raises _ _ e) in H by assumption. discriminate.
  - exists con. split; [reflexivity|].
    destruct (failure (con LOGINS_QUERY)) as [e|] eqn:F.
    + rewrite (extract_query_raises _ _ con e) in H by assumption.
      cbn [fst] in H. destruct (isinstance e DatabaseError); [|discriminate].
      injection H as <-. apply fetch_loop_any_stop.
    + rewrite (extract_rows_read _ _ con) in H by assumption.
      cbn [fst] in H. now injection H as <-.
Qed.

(** X1.  In the mapping the extractor returns, the list of a site holds the
    usernames of the rows of that site that have a username, in the order
    of the rows and with their repetitions; a site without such a row has
    no entry. *)
Theorem extracted_usernames_in_row_order
    (sqlite3_connect : option string -> connect_result) (filepath : option string)
    (con : connection) (d : dict (list pyval)) (site : pyval) :
  sqlite3_connect filepath = Connected con ->
  extraction sqlite3_connect filepath = Return d ->
  dict_get site d
  = match usernames_of site (fetched (con LOGINS_QUERY)) with
    | [] => None
    | us => Some us
    end.
Proof.
  intros C H. apply extraction_Return_inv in H. destruct H as [con' [C' ->]].
  assert (con' = con) by congruence. subst con'.
  rewrite fetch_loop_get. reflexivity.
Qed.

Lemma extracted_usernames_in_row_order_witness :
  dict_get Scenario.site_x [(Scenario.site_x, [PyStr "a"; PyStr "b"])]
  = match usernames_of Scenario.site_x
            (fetched (Scenario.rows_of rows_B LOGINS_QUERY)) with
    | [] => None
    | us => Some us
    end.
Proof.
  apply (extracted_usernames_in_row_order Scenario.world (Some "/in/B")
           (Scenario.rows_of rows_B) [(Scenario.site_x, [PyStr "a"; PyStr "b"])]
           Scenario.site_x).
  - reflexivity.
  - vm_compute. reflexivity.
Defined.

(** X2.  The sites of the mapping the extractor returns are those of the
    rows that have a username, each once, in the order in which each is
    seen first. *)
Theorem extracted_sites_first_seen
    (sqlite3_connect : option string -> connect_result) (filepath : option string)
    (con : connection) (d : dict (list pyval)) :
  sqlite3_connect filepath = Connected con ->
  extraction sqlite3_connect filepath = Return d ->
  dict_keys d = first_seen [] (sites_with_username (fetched (con LOGINS_QUERY)))
  /\ NoDup (dict_keys d)
  /\ forall site,
       In site (dict_keys d)
       <-> exists u, In (site, u) (fetched (con LOGINS_QUERY)) /\ truthy u = true.
Proof.
  intros C H. apply extraction_Return_inv in H. destruct H as [con' [C' ->]].
  assert (con' = con) by congruence. subst con'.
  split; [apply (fetch_loop_key_order _ None [])|].
  split; [apply fetch_loop_NoDup; constructor|].
  intros site. split.
  - intros I. apply fetch_loop_keys in I. destruct I as [[]|I]. exact I.
  - intros [u [I T]].
    destruct (in_dec Runtime.pyval_eq_dec site
                (dict_keys (fst (fetch_loop (fetched (con LOGINS_QUERY)) None []))))
      as [Y|N]; [assumption|].
    exfalso. apply dict_get_None in N. rewrite fetch_loop_get in N.
    cbn [dict_get] in N.
    assert (U : In u (usernames_of site (fetched (con LOGINS_QUERY)))).
    { unfold usernames_of. change u with (snd (site, u)). apply in_map.
      apply filter_In. split; [assumption|].
      cbn [fst snd]. now rewrite T, pyval_eqb_refl. }
    destruct (usernames_of site (fetched (con LOGINS_QUERY))); [destruct U | discriminate].
Qed.

Lemma extracted_sites_first_seen_witness :
  dict_keys [(Scenario.site_x, [PyStr "a"; PyStr "b"])]
  = first_seen [] (sites_with_username (fetched (Scenario.rows_of rows_B LOGINS_QUERY)))
  /\ NoDup (dict_keys [(Scenario.site_x, [PyStr "a"; PyStr "b"])])
  /\ forall site,
       In site (dict_keys [(Scenario.site_x, [PyStr "a"; PyStr "b"])])
       <-> exists u, In (site, u) (fetched (Scenario.rows_of rows_B LOGINS_QUERY))
                     /\ truthy u = true.
Proof.
  apply (extracted_sites_first_seen Scenario.world (Some "/in/B")
           (Scenario.rows_of rows_B) [(Scenario.site_x, [PyStr "a"; PyStr "b"])]).
  - reflexivity.
  - vm_compute. reflexivity.
Defined.

(** What every item of a returned mapping is like. *)
Lemma extraction_items (sqlite3_connect : option string -> connect_result)
    (filepath : option string) (d : dict (list pyval)) :
  extraction sqlite3_connect filepath = Return d ->
  NoDup (dict_keys d)
  /\ forall site us,
       In (site, us) d -> us <> [] /\ forall u, In u us -> truthy u = true.
Proof.
  intros H. apply extraction_Return_inv in H. destruct H as [con [C ->]].
  assert (ND : NoDup (dict_keys (fst (fetch_loop (fetched (con LOGINS_QUERY)) None []))))
    by (apply fetch_loop_NoDup; constructor).
  split; [exact ND|]. intros site us I.
  apply In_dict_get in I; [|exact ND].
  rewrite fetch_loop_get in I. cbn [dict_get] in I.
  assert (T : forall u, In u (usernames_of site (fetched (con LOGINS_QUERY))) ->
                        truthy u = true).
  { intros u U. unfold usernames_of in U. apply in_map_iff in U.
    destruct U as [r [<- U]]. apply filter_In in U. destruct U as [_ U].
    now apply andb_true_iff in U. }
  destruct (usernames_of site (fetched (con LOGINS_QUERY))) as [|u0 us0];
    [discriminate|].
  injection I as <-. split; [discriminate | exact T].
Qed.

(** X3.  Every site of the mapping the extractor returns has at least one
    username, and none of its usernames is empty or absent. *)
Theorem extracted_lists_nonempty
    (sqlite3_connect : option string -> connect_result) (filepath : option string)
    (d : dict (list pyval)) (site : pyval) (us : list pyval) :
  extraction sqlite3_connect filepath = Return d ->
  In (site, us) d ->
  us <> []
  /\ forall u, In u us -> truthy u = true /\ u <> PyNone /\ u <> PyStr "".
Proof.
  intros H I. destruct (extraction_items _ _ _ H) as [_ A].
  destruct (A site us I) as [N T]. split; [exact N|].
  intros u U. specialize (T u U). split; [exact T|].
  split; intros ->; discriminate.
Qed.

Lemma extracted_lists_nonempty_witness :
  [PyStr "a"; PyStr "b"] <> []
  /\ forall u, In u [PyStr "a"; PyStr "b"] ->
               truthy u = true /\ u <> PyNone /\ u <> PyStr "".
Proof.
  apply (extracted_lists_nonempty Scenario.world (Some "/in/B")
           [(Scenario.site_x, [PyStr "a"; PyStr "b"])] Scenario.site_x).
  - vm_compute. reflexivity.
  - left. reflexivity.
Defined.

(** X4.  When the query or the iteration raises a [DatabaseError] (an
    [OperationalError] included), the extractor returns the mapping of the
    rows read before the failure, the one it returns when those rows are
    the whole table; but it leaves the connection open, which it closes
    when the rows are read to the end. *)
Theorem absorbed_failure_keeps_rows_leaves_connection_open
    (sqlite3_connect : option string -> connect_result) (filepath : option string)
    (con : connection) (e : exn) (s : Job) :
  sqlite3_connect filepath = Connected con ->
  failure (con LOGINS_QUERY) = Some e ->
  isinstance e DatabaseError = true ->
  fst (_extract_chrome_creds sqlite3_connect filepath s)
  = fst (_extract_chrome_creds (store_of (fetched (con LOGINS_QUERY)) None) filepath s)
  /\ trace (snd (_extract_chrome_creds sqlite3_connect filepath s))
     = trace s ++ [EvConnect filepath]
  /\ trace (snd (_extract_chrome_creds
                   (store_of (fetched (con LOGINS_QUERY)) None) filepath s))
     = trace s ++ [EvConnect filepath; EvClose filepath].
Proof.
  intros C F I.
  rewrite (extract_query_raises _ _ con e) by assumption.
  rewrite (extract_rows_read _ _ (fun _ => {| fetched := fetched (con LOGINS_QUERY);
                                              failure := None |}))
    by reflexivity.
  rewrite I. cbn [fst snd fetched trace after_events].
  split; [|split; reflexivity].
  f_equal. apply fetch_loop_any_stop.
Qed.

Lemma absorbed_failure_keeps_rows_leaves_connection_open_witness :
  fst (_extract_chrome_creds truncated_store (Some "/in/T") job_start)
  = fst (_extract_chrome_creds
           (store_of (fetched (truncated_con LOGINS_QUERY)) None) (Some "/in/T")
           job_start)
  /\ trace (snd (_extract_chrome_creds truncated_store (Some "/in/T") job_start))
     = trace job_start ++ [EvConnect (Some "/in/T")]
  /\ trace (snd (_extract_chrome_creds
                   (store_of (fetched (truncated_con LOGINS_QUERY)) None)
                   (Some "/in/T") job_start))
     = trace job_start ++ [EvConnect (Some "/in/T"); EvClose (Some "/in/T")].
Proof.
  apply (absorbed_failure_keeps_rows_leaves_connection_open truncated_store
           (Some "/in/T") truncated_con DatabaseError job_start); reflexivity.
Defined.

(** X5.  The extractor raises exactly in two cases: the connection raises,
    or the query or the iteration raises an exception that is not a
    [DatabaseError]; it raises that exception.  No [DatabaseError] of the
    query leaves it. *)
Theorem extraction_raises_iff
    (sqlite3_connect : option string -> connect_result) (filepath : option string)
    (e : exn) :
  extraction sqlite3_connect filepath = Raise e
  <-> sqlite3_connect filepath = ConnectRaises e
      \/ exists con,
           sqlite3_connect filepath = Connected con
           /\ failure (con LOGINS_QUERY) = Some e
           /\ isinstance e DatabaseError = false.
Proof.
  unfold extraction.
  destruct (sqlite3_connect filepath) as [e0|con] eqn:C.
  - rewrite (extract_connect_raises _ _ e0) by assumption. cbn [fst]. split.
    + intros [= ->]. now left.
    + intros [[= ->]|[con [X _]]]; [reflexivity | discriminate].
  - destruct (failure (con LOGINS_QUERY)) as [e0|] eqn:F.
    + rewrite (extract_query_raises _ _ con e0) by assumption. cbn [fst]. split.
      * destruct (isinstance e0 DatabaseError) eqn:I; [discriminate|].
        intros [= ->]. right. exists con. auto.
      * intros [X|[con' [X [F' I]]]]; [discriminate|].
        injection X as <-. rewrite F in F'. injection F' as ->.
        now rewrite I.
    + rewrite (extract_rows_read _ _ con) by assumption. cbn [fst]. split.
      * discriminate.
      * intros [X|[con' [X [F' _]]]]; [discriminate|].
        injection X as <-. congruence.
Qed.

Lemma extraction_raises_iff_witness :
  extraction interface_failure_store (Some "/in/I") = Raise InterfaceError.
Proof.
  apply (extraction_raises_iff interface_failure_store (Some "/in/I") InterfaceError).
  right. exists interface_failure_con. repeat split; reflexivity.
Defined.

(** ** What the job does with the mappings of its files *)

Section UpdateFacts.
Context {V : Type}.
Implicit Types (d src : dict V) (k : pyval) (v : V).

Lemma dict_set_keys_In k k' v d :
  In k' (dict_keys (dict_set k v d)) <-> k' = k \/ In k' (dict_keys d).
Proof.
  destruct (in_dec Runtime.pyval_eq_dec k (dict_keys d)) as [I|N].
  - rewrite dict_keys_set_present by assumption. split; [auto|].
    intros [->|H]; assumption.
  - rewrite dict_keys_set_new by assumption. rewrite in_app_iff. simpl.
    split; [intros [H|[<-|[]]]; auto | intros [->|H]; auto].
Qed.

Lemma dict_update_keys_In k d src :
  In k (dict_keys (dict_update d src)) <-> In k (dict_keys d) \/ In k (dict_keys src).
Proof.
  unfold dict_update. revert d.
  induction src as [|[k0 v0] src IH]; intros d; simpl; [tauto|].
  rewrite IH, dict_set_keys_In. split; [intros [[->|H]|H] | intros [H|[<-|H]]]; auto.
Qed.

Lemma dict_set_items_In k k' v v' d :
  In (k', v') (dict_set k v d) -> (k', v') = (k, v) \/ In (k', v') d.
Proof.
  induction d as [|[k0 v0] d IH]; simpl.
  - intros [<-|[]]. now left.
  - key_cases k k0; simpl.
    + intros [<-|H]; auto.
    + intros [H|H]; [auto|]. apply IH in H. tauto.
Qed.

Lemma dict_update_items_In k v d src :
  In (k, v) (dict_update d src) -> In (k, v) d \/ In (k, v) src.
Proof.
  unfold dict_update. revert d.
  induction src as [|[k0 v0] src IH]; intros d; simpl; [auto|].
  intros H. apply IH in H. destruct H as [H|H]; [|auto].
  apply dict_set_items_In in H. destruct H as [H|H]; auto.
Qed.

Lemma dict_get_update k d src :
  NoDup (dict_keys src) ->
  dict_get k (dict_update d src)
  = match dict_get k src with
    | Some v => Some v
    | None => dict_get k d
    end.
Proof.
  intros ND. destruct (dict_get k src) as [v|] eqn:G.
  - now apply dict_get_update_present.
  - apply dict_get_update_absent. now apply dict_get_None.
Qed.

Lemma dict_truthy_set k v d : dict_truthy (dict_set k v d) = true.
Proof. destruct d as [|[k0 v0] d]; simpl; [reflexivity|]. now destruct (pyval_eqb k k0). Qed.

Lemma dict_truthy_update d src :
  dict_truthy (dict_update d src) = dict_truthy d || dict_truthy src.
Proof.
  unfold dict_update. revert d.
  induction src as [|[k0 v0] src IH]; intros d; simpl.
  - now rewrite orb_false_r.
  - rewrite IH, dict_truthy_set. simpl. now rewrite orb_true_r.
Qed.

End UpdateFacts.

Section AggregateFacts.
Variable B : Builtins.
Variable sqlite3_connect : option string -> connect_result.
Variable P : Platform.
Variable output_path : option string.
Variable workflow_id : option string.

Let body := process_file B sqlite3_connect P output_path.
Let merge (acc : dict (list pyval)) (f : InputFile) :=
  dict_update acc (creds_of sqlite3_connect f).

Lemma creds_of_NoDup (f : InputFile) : NoDup (dict_keys (creds_of sqlite3_connect f)).
Proof.
  unfold creds_of. destruct (extraction _ _) as [d|e] eqn:X; [|constructor].
  now apply extraction_items in X.
Qed.

Lemma yields_creds_of (f : InputFile) :
  yields_creds sqlite3_connect f = dict_truthy (creds_of sqlite3_connect f).
Proof. unfold yields_creds, creds_of. now destruct (extraction _ _). Qed.

(** A loop that returns has merged the mappings of the files, in their
    order, with [update]. *)
Lemma loop_aggregate (files : list InputFile) (s s' : Job) :
  for_each files body s = (Return tt, s') ->
  extracted_creds s' = fold_left merge files (extracted_creds s).
Proof.
  revert s. induction files as [|f files IH]; intros s.
  - intros [= <-]. reflexivity.
  - unfold body at 1. rewrite loop_step. cbn [fold_left].
    rewrite process_file_outcome.
    destruct (turn_failure B sqlite3_connect P output_path (next_uuid s, f))
      as [e|] eqn:TF; [discriminate|].
    destruct (process_file_returns B sqlite3_connect P output_path f s TF) as [d [X R]].
    rewrite R. cbn [snd]. fold body. intros H. apply IH in H.
    cbn [extracted_creds] in H. rewrite H.
    unfold merge at 3, creds_of. now rewrite X.
Qed.

Lemma aggregate_keys_In (files : list InputFile) (d : dict (list pyval)) (k : pyval) :
  In k (dict_keys (fold_left merge files d))
  <-> In k (dict_keys d)
      \/ exists f, In f files /\ In k (dict_keys (creds_of sqlite3_connect f)).
Proof.
  revert d. induction files as [|f files IH]; intros d; cbn [fold_left].
  - split; [auto | intros [H|[f [[] _]]]; exact H].
  - rewrite IH. unfold merge. rewrite dict_update_keys_In. split.
    + intros [[H|H]|[g [I H]]]; [auto| |].
      * right. exists f. split; [now left | exact H].
      * right. exists g. split; [now right | exact H].
    + intros [H|[g [[<-|I] H]]]; [auto|auto|].
      right. exists g. auto.
Qed.

Lemma aggregate_items_In (files : list InputFile) (d : dict (list pyval))
    (k : pyval) (v : list pyval) :
  In (k, v) (fold_left merge files d) ->
  In (k, v) d \/ exists f, In f files /\ In (k, v) (creds_of sqlite3_connect f).
Proof.
  revert d. induction files as [|f files IH]; intros d; cbn [fold_left]; [auto|].
  intros H. apply IH in H. destruct H as [H|[g [I H]]].
  - apply dict_update_items_In in H. destruct H as [H|H]; [auto|].
    right. exists f. split; [now left | exact H].
  - right. exists g. split; [now right | exact H].
Qed.

Lemma aggregate_get (files : list InputFile) (d : dict (list pyval)) (site : pyval) :
  dict_get site (fold_left merge files d)
  = fold_left
      (fun acc f =>
         match dict_get site (creds_of sqlite3_connect f) with
         | Some l => Some l
         | None => acc
         end)
      files (dict_get site d).
Proof.
  revert d. induction files as [|f files IH]; intros d; cbn [fold_left]; [reflexivity|].
  rewrite IH. unfold merge. rewrite dict_get_update by apply creds_of_NoDup.
  reflexivity.
Qed.

Lemma aggregate_truthy (files : list InputFile) (d : dict (list pyval)) :
  dict_truthy (fold_left merge files d)
  = dict_truthy d || existsb (yields_creds sqlite3_connect) files.
Proof.
  revert d. induction files as [|f files IH]; intros d; cbn [fold_left existsb].
  - now rewrite orb_false_r.
  - rewrite IH. unfold merge. rewrite dict_truthy_update, yields_creds_of.
    now rewrite orb_assoc.
Qed.

(** The job that returns: the state its loop left, and its result. *)
Lemma command_returns_inv (input_files : list InputFile) (s : Job) (r : TaskResult) :
  fst (command B sqlite3_connect P output_path workflow_id input_files s) = Return r ->
  exists s1,
    for_each input_files body (loop_entry s) = (Return tt, s1)
    /\ extracted_creds s1 = fold_left merge input_files []
    /\ snd (command B sqlite3_connect P output_path workflow_id input_files s)
       = with_creds s1 (map (dedup_item B) (extracted_creds s1))
    /\ r = {| res_output_files := output_files s1;
              res_workflow_id := workflow_id;
              res_task_report :=
                [generate_report B (map (dedup_item B) (extracted_creds s1))] |}.
Proof.
  rewrite command_spec.
  destruct (for_each input_files _ (loop_entry s)) as [[u|e] s1] eqn:L;
    [|discriminate].
  destruct u. cbv zeta. cbn [fst snd]. intros [= <-]. exists s1.
  split; [reflexivity|]. split; [|split; reflexivity].
  apply loop_aggregate in L. exact L.
Qed.

End AggregateFacts.

Section JobExtras.
Variable B : Builtins.
Variable sqlite3_connect : option string -> connect_result.
Variable P : Platform.
Variable output_path : option string.
Variable workflow_id : option string.

Let run (input_files : list InputFile) (s : Job) :=
  command B sqlite3_connect P output_path workflow_id input_files s.

Lemma filter_numbered_nil (p : InputFile -> bool) (base : nat) (files : list InputFile) :
  filter (fun nf => p (snd nf)) (numbered base files) = []
  <-> existsb p files = false.
Proof.
  revert base. induction files as [|f files IH]; intros base; simpl; [tauto|].
  destruct (p f); simpl; [split; discriminate | apply IH].
Qed.


(** X7.  The report of a job that returns counts the distinct sites of its
    input files: the final mapping has each site once, a site is in it
    exactly when the mapping of one of the files has it, and the summary
    of the report bears the number of these sites. *)
Theorem report_counts_distinct_sites (input_files : list InputFile) (s : Job)
    (r : TaskResult) :
  fst (command B sqlite3_connect P output_path workflow_id input_files s) = Return r ->
  let final :=
    extracted_creds
      (snd (command B sqlite3_connect P output_path workflow_id input_files s)) in
  NoDup (dict_keys final)
  /\ (forall site,
        In site (dict_keys final)
        <-> exists f, In f input_files
                      /\ In site (dict_keys (creds_of sqlite3_connect f)))
  /\ map summary (res_task_report r)
     = [(str_of_nat (List.length (dict_keys final))
         ++ " saved credentials found in Chrome Login Data")%string].
Proof.
  intros H. apply command_returns_inv in H.
  destruct H as (s1 & L & A & S & ->). cbv zeta. rewrite S.
  cbn [extracted_creds with_creds res_task_report map].
  rewrite dedup_item_keys.
  split; [|split].
  - apply loop_returns in L. destruct L as (_ & _ & ND). apply ND. constructor.
  - intros site. rewrite A, aggregate_keys_In. cbn [dict_keys map].
    split; [intros [[]|H]; exact H | auto].
  - unfold generate_report, generate_report_frame.
    rewrite generate_report_frame_spec. cbn [snd fr_report summary].
    unfold summary_of, dict_keys. now rewrite !length_map.
Qed.

(** X8.  For a site that several input files have, the job keeps the list
    of the last of them only: in the final mapping of a job that returns,
    the list of a site is the list of distinct usernames that the last
    input file having the site gives to it. *)
Theorem last_file_decides_site_list (input_files : list InputFile) (s : Job)
    (r : TaskResult) (site : pyval) :
  fst (command B sqlite3_connect P output_path workflow_id input_files s) = Return r ->
  dict_get site
    (extracted_creds
       (snd (command B sqlite3_connect P output_path workflow_id input_files s)))
  = option_map (list_of_set B) (last_list sqlite3_connect site input_files).
Proof.
  intros H. apply command_returns_inv in H.
  destruct H as (s1 & L & A & S & ->). rewrite S.
  cbn [extracted_creds with_creds].
  rewrite dict_get_dedup, A, aggregate_get. reflexivity.
Qed.

(** X9.  In the result of a job that returns, the priority of the report
    and the list of output files agree: the report is MEDIUM exactly when
    at least one output file is recorded, and LOW exactly when none is. *)
Theorem priority_medium_iff_output_files (input_files : list InputFile) (s : Job)
    (r : TaskResult) :
  fst (command B sqlite3_connect P output_path workflow_id input_files s) = Return r ->
  exists report,
    res_task_report r = [report]
    /\ res_workflow_id r = workflow_id
    /\ (priority report = MEDIUM <-> res_output_files r <> [])
    /\ (priority report = LOW <-> res_output_files r = []).
Proof.
  intros H. apply command_returns_inv in H.
  destruct H as (s1 & L & A & S & ->).
  eexists. split; [reflexivity|]. split; [reflexivity|].
  cbn [res_output_files].
  unfold generate_report, generate_report_frame.
  rewrite generate_report_frame_spec. cbn [snd fr_report priority].
  assert (T : dict_truthy (map (dedup_item B) (extracted_creds s1))
              = existsb (yields_creds sqlite3_connect) input_files).
  { assert (M : forall d : dict (list pyval),
                  dict_truthy (map (dedup_item B) d) = dict_truthy d)
      by (intros [|kv d]; reflexivity).
    rewrite M, A.
    apply (aggregate_truthy sqlite3_connect input_files []). }
  rewrite T.
  apply loop_returns in L. destruct L as (_ & O & _).
  cbn [loop_entry output_files next_uuid Datatypes.app] in O. rewrite O.
  pose proof (filter_numbered_nil (yields_creds sqlite3_connect) (next_uuid s)
                input_files) as N.
  destruct (existsb (yields_creds sqlite3_connect) input_files).
  - assert (X : filter (fun nf => yields_creds sqlite3_connect (snd nf))
                  (numbered (next_uuid s) input_files) <> [])
      by (intros X; apply N in X; discriminate).
    destruct (filter _ (numbered (next_uuid s) input_files)); [contradiction|].
    cbn [map]. split; split; try discriminate; auto.
  - assert (X : filter (fun nf => yields_creds sqlite3_connect (snd nf))
                  (numbered (next_uuid s) input_files) = [])
      by now apply N.
    rewrite X. cbn [map]. split; split; try discriminate; auto.
    intros Y. now contradiction Y.
Qed.

(** X10.  What a job that returns has written through its [with open]
    block: one text per input file with credentials, in the order of the
    input files, into the file of the descriptor recorded for that input
    file.  The text is the [str] of the mapping of that input file alone,
    as extracted: not what the job has merged so far, and with the
    repetitions of usernames.  The files written are those of the list of
    output files. *)
Theorem writes_are_per_file_mappings (input_files : list InputFile) (s : Job)
    (r : TaskResult) :
  fst (command B sqlite3_connect P output_path workflow_id input_files s) = Return r ->
  written_texts
    (trace (snd (command B sqlite3_connect P output_path workflow_id input_files s)))
  = written_texts (trace s)
    ++ map (fun nf => (artifact_of output_path (fst nf) (snd nf),
                       repr_dict B (creds_of sqlite3_connect (snd nf))))
           (filter (fun nf => yields_creds sqlite3_connect (snd nf))
                   (numbered (next_uuid s) input_files))
  /\ map fst
       (map (fun nf => (artifact_of output_path (fst nf) (snd nf),
                        repr_dict B (creds_of sqlite3_connect (snd nf))))
            (filter (fun nf => yields_creds sqlite3_connect (snd nf))
                    (numbered (next_uuid s) input_files)))
     = res_output_files r.
Proof.
  intros H.
  destruct (command_returns_events _ _ _ _ _ _ _ _ H) as (F & _ & _ & W).
  split; [exact W|]. rewrite F, map_map. reflexivity.
Qed.

(** X11.  In the final mapping of a job that returns, every site has at
    least one username, no username is repeated, and none is empty or
    absent. *)
Theorem final_lists_nonempty (input_files : list InputFile) (s : Job)
    (r : TaskResult) (site : pyval) (us : list pyval) :
  fst (command B sqlite3_connect P output_path workflow_id input_files s) = Return r ->
  In (site, us)
     (extracted_creds
        (snd (command B sqlite3_connect P output_path workflow_id input_files s))) ->
  us <> [] /\ NoDup us /\ forall u, In u us -> truthy u = true.
Proof.
  intros H I. apply command_returns_inv in H.
  destruct H as (s1 & L & A & S & ->). rewrite S in I.
  cbn [extracted_creds with_creds] in I.
  apply in_map_iff in I. destruct I as [[k l] [E I]].
  unfold dedup_item in E. cbn [fst snd] in E. injection E as -> <-.
  rewrite A in I. apply aggregate_items_In in I.
  destruct I as [[]|[f [_ I]]].
  unfold creds_of in I.
  destruct (extraction sqlite3_connect (in_path f)) as [d|e] eqn:X; [|destruct I].
  apply extraction_items in X. destruct X as [_ X].
  destruct (X site l I) as [N T].
  split; [|split].
  - destruct l as [|u0 l]; [contradiction|].
    intros Z. assert (U : In u0 (list_of_set B (u0 :: l)))
      by (apply list_of_set_In; now left).
    rewrite Z in U. destruct U.
  - apply list_of_set_NoDup.
  - intros u U. apply T. now apply list_of_set_In in U.
Qed.

End JobExtras.

Lemma job1_returns :
  fst (command Runtime.cpython Scenario.world Scenario.platform (Some "/out") (Some "wf1")
         Scenario.job1 job_start)
  = Return Scenario.result1.
Proof. vm_compute. reflexivity. Defined.

Lemma report_counts_distinct_sites_witness :
  let final :=
    extracted_creds
      (snd (command Runtime.cpython Scenario.world Scenario.platform (Some "/out") (Some "wf1")
              Scenario.job1 job_start)) in
  NoDup (dict_keys final)
  /\ (forall site,
        In site (dict_keys final)
        <-> exists f, In f Scenario.job1
                      /\ In site (dict_keys (creds_of Scenario.world f)))
  /\ map summary (res_task_report Scenario.result1)
     = [(str_of_nat (List.length (dict_keys final))
         ++ " saved credentials found in Chrome Login Data")%string].
Proof.
  exact (report_counts_distinct_sites Runtime.cpython Scenario.world Scenario.platform (Some "/out")
           (Some "wf1") Scenario.job1 job_start Scenario.result1 job1_returns).
Defined.

Lemma last_file_decides_site_list_witness :
  dict_get Scenario.site_x
    (extracted_creds
       (snd (command Runtime.cpython Scenario.world Scenario.platform (Some "/out") (Some "wf1")
               Scenario.job1 job_start)))
  = option_map (list_of_set Runtime.cpython)
               (last_list Scenario.world Scenario.site_x Scenario.job1).
Proof.
  exact (last_file_decides_site_list Runtime.cpython Scenario.world Scenario.platform (Some "/out")
           (Some "wf1") Scenario.job1 job_start Scenario.result1 Scenario.site_x
           job1_returns).
Defined.

Lemma priority_medium_iff_output_files_witness :
  exists report,
    res_task_report Scenario.result1 = [report]
    /\ res_workflow_id Scenario.result1 = Some "wf1"
    /\ (priority report = MEDIUM <-> res_output_files Scenario.result1 <> [])
    /\ (priority report = LOW <-> res_output_files Scenario.result1 = []).
Proof.
  exact (priority_medium_iff_output_files Runtime.cpython Scenario.world Scenario.platform (Some "/out")
           (Some "wf1") Scenario.job1 job_start Scenario.result1 job1_returns).
Defined.

Lemma final_lists_nonempty_witness :
  [PyStr "a"; PyStr "b"] <> []
  /\ NoDup [PyStr "a"; PyStr "b"]
  /\ forall u, In u [PyStr "a"; PyStr "b"] -> truthy u = true.
Proof.
  apply (final_lists_nonempty Runtime.cpython Scenario.world Scenario.platform (Some "/out")
           (Some "wf1") Scenario.job1 job_start Scenario.result1 Scenario.site_x
           [PyStr "a"; PyStr "b"] job1_returns).
  vm_compute. left. reflexivity.
Defined.


Lemma writes_are_per_file_mappings_witness :
  written_texts
    (trace (snd (command Runtime.cpython Scenario.world Scenario.platform
                   (Some "/out") (Some "wf1") Scenario.job1 job_start)))
  = written_texts (trace job_start)
    ++ map (fun nf => (artifact_of (Some "/out") (fst nf) (snd nf),
                       repr_dict Runtime.cpython (creds_of Scenario.world (snd nf))))
           (filter (fun nf => yields_creds Scenario.world (snd nf))
                   (numbered (next_uuid job_start) Scenario.job1))
  /\ map fst
       (map (fun nf => (artifact_of (Some "/out") (fst nf) (snd nf),
                        repr_dict Runtime.cpython
                          (creds_of Scenario.world (snd nf))))
            (filter (fun nf => yields_creds Scenario.world (snd nf))
                    (numbered (next_uuid job_start) Scenario.job1)))
     = res_output_files Scenario.result1.
Proof.
  exact (writes_are_per_file_mappings Runtime.cpython Scenario.world
           Scenario.platform (Some "/out") (Some "wf1") Scenario.job1 job_start
           Scenario.result1 job1_returns).
Defined.

(** The texts written by the job of three files. *)
Example texts_of_three_files :
  map (fun ft => (of_display_name (fst ft), snd ft))
      (written_texts (trace Scenario.state1))
  = [("A-chromecreds.dict", "{'http://x.com': ['a']}");
     ("B-chromecreds.dict", "{'http://x.com': ['a', 'b']}")].
Proof. vm_compute. reflexivity. Qed.

(** The job that meets a path it cannot open after file A: it fails, and
    the file written for A stays. *)
Example failed_job_leaves_written_file :
  first_failure Runtime.cpython Scenario.world Scenario.platform (Some "/out")
    (numbered 0 [Scenario.file_A; Scenario.file_unopenable; Scenario.file_B])
  = Some OperationalError
  /\ map (fun ft => (of_display_name (fst ft), snd ft))
         (written_texts
            (trace (snd (Scenario.run
                           [Scenario.file_A; Scenario.file_unopenable;
                            Scenario.file_B]))))
     = [("A-chromecreds.dict", "{'http://x.com': ['a']}")].
Proof. split; vm_compute; reflexivity. Qed.

(** ** Further edges of the extractor and of the naming *)

(** X12.  The test [if not row[1]] drops more than empty and absent
    usernames: the false values are [None], the integer 0, the empty string
    and the empty blob, and a row whose username is any of them contributes
    nothing, the extractor giving what it gives for the store without that
    row. *)
Theorem false_usernames_dropped
    (sqlite3_connect : option string -> connect_result) (filepath : option string)
    (con : connection) (rows1 rows2 : list row) (r : row) (stop : option exn)
    (s : Job) :
  sqlite3_connect filepath = Connected con ->
  con LOGINS_QUERY = {| fetched := rows1 ++ r :: rows2; failure := stop |} ->
  snd r = PyNone \/ snd r = PyInt 0 \/ snd r = PyStr "" \/ snd r = PyBytes [] ->
  _extract_chrome_creds sqlite3_connect filepath s
  = _extract_chrome_creds (store_of (rows1 ++ rows2) stop) filepath s
  /\ forall v, truthy v = false
               <-> v = PyNone \/ v = PyInt 0 \/ v = PyStr "" \/ v = PyBytes [].
Proof.
  intros C Q E.
  assert (Fy : forall v, truthy v = false
                         <-> v = PyNone \/ v = PyInt 0 \/ v = PyStr "" \/ v = PyBytes []).
  { intros v. split.
    - destruct v as [|z|t|b]; simpl; intros H.
      + now left.
      + right; left. apply negb_false_iff, Z.eqb_eq in H. now subst.
      + right; right; left. apply negb_false_iff, String.eqb_eq in H. now subst.
      + right; right; right. destruct b; [reflexivity | discriminate].
    - intros [->|[->|[->| ->]]]; reflexivity. }
  split; [|exact Fy].
  apply Fy in E.
  assert (F : failure (con LOGINS_QUERY) = stop) by now rewrite Q.
  assert (R : fetched (con LOGINS_QUERY) = rows1 ++ r :: rows2) by now rewrite Q.
  destruct stop as [e|].
  - rewrite (extract_query_raises _ _ con e) by assumption.
    rewrite (extract_query_raises _ _ (fun _ => {| fetched := rows1 ++ rows2;
                                                  failure := Some e |}) e)
      by reflexivity.
    cbn [fetched]. now rewrite R, fetch_loop_skip.
  - rewrite (extract_rows_read _ _ con) by assumption.
    rewrite (extract_rows_read _ _ (fun _ => {| fetched := rows1 ++ rows2;
                                                failure := None |}))
      by reflexivity.
    cbn [fetched]. now rewrite R, fetch_loop_skip.
Qed.

Lemma false_usernames_dropped_witness :
  _extract_chrome_creds
    (store_of ([(Scenario.site_x, PyStr "a")]
               ++ (PyStr "http://z.com", PyInt 0) :: [(Scenario.site_x, PyStr "b")])
              None)
    (Some "/in/Z") job_start
  = _extract_chrome_creds
      (store_of ([(Scenario.site_x, PyStr "a")] ++ [(Scenario.site_x, PyStr "b")]) None)
      (Some "/in/Z") job_start
  /\ forall v, truthy v = false
               <-> v = PyNone \/ v = PyInt 0 \/ v = PyStr "" \/ v = PyBytes [].
Proof.
  apply (false_usernames_dropped
           (store_of ([(Scenario.site_x, PyStr "a")]
                      ++ (PyStr "http://z.com", PyInt 0)
                         :: [(Scenario.site_x, PyStr "b")]) None)
           (Some "/in/Z")
           (fun _ => {| fetched := [(Scenario.site_x, PyStr "a")]
                                   ++ (PyStr "http://z.com", PyInt 0)
                                      :: [(Scenario.site_x, PyStr "b")];
                        failure := None |})
           [(Scenario.site_x, PyStr "a")] [(Scenario.site_x, PyStr "b")]
           (PyStr "http://z.com", PyInt 0) None job_start).
  - reflexivity.
  - reflexivity.
  - right. left. reflexivity.
Defined.

(** X13.  The extractor reads the store through the one query on the
    logins table and nothing else: two stores that answer this query alike
    give the same outcome and the same events, whatever they answer to
    other statements. *)
Theorem extractor_reads_logins_query_only
    (connect1 connect2 : option string -> connect_result) (filepath : option string)
    (con1 con2 : connection) (s : Job) :
  connect1 filepath = Connected con1 ->
  connect2 filepath = Connected con2 ->
  con1 LOGINS_QUERY = con2 LOGINS_QUERY ->
  _extract_chrome_creds connect1 filepath s = _extract_chrome_creds connect2 filepath s.
Proof.
  intros C1 C2 Q.
  destruct (failure (con1 LOGINS_QUERY)) as [e|] eqn:F.
  - rewrite (extract_query_raises _ _ con1 e) by assumption.
    rewrite (extract_query_raises _ _ con2 e) by congruence.
    now rewrite Q.
  - rewrite (extract_rows_read _ _ con1) by assumption.
    rewrite (extract_rows_read _ _ con2) by congruence.
    now rewrite Q.
Qed.

Lemma extractor_reads_logins_query_only_witness :
  _extract_chrome_creds Scenario.world (Some "/in/A") job_start
  = _extract_chrome_creds (store_of [(Scenario.site_x, PyStr "a")] None)
      (Some "/in/A") job_start.
Proof.
  apply (extractor_reads_logins_query_only Scenario.world
           (store_of [(Scenario.site_x, PyStr "a")] None) (Some "/in/A")
           (Scenario.rows_of [(Scenario.site_x, PyStr "a")])
           (fun _ => {| fetched := [(Scenario.site_x, PyStr "a")]; failure := None |})
           job_start); reflexivity.
Defined.

(** X14.  An input file without a display name gets the output file named
    "None-chromecreds.dict": when the job returns and such a file has
    credentials, an output file of that name is recorded. *)
Theorem missing_display_name_gives_None_name (B : Builtins)
    (sqlite3_connect : option string -> connect_result) (P : Platform)
    (output_path workflow_id : option string)
    (input_files : list InputFile) (s : Job) (r : TaskResult) (f : InputFile) :
  fst (command B sqlite3_connect P output_path workflow_id input_files s) = Return r ->
  In f input_files ->
  in_display_name f = None ->
  yields_creds sqlite3_connect f = true ->
  In "None-chromecreds.dict" (map of_display_name (res_output_files r)).
Proof.
  intros H I D Y. apply command_returns_inv in H.
  destruct H as (s1 & L & _ & _ & ->). cbn [res_output_files].
  apply loop_returns in L. destruct L as (_ & O & _).
  cbn [loop_entry output_files next_uuid Datatypes.app] in O. rewrite O.
  assert (N : forall base files, In f files ->
                exists n, In (n, f) (numbered base files)).
  { intros base files. revert base.
    induction files as [|g files IH]; intros base; simpl; [tauto|].
    intros [->|J]; [exists base; now left|].
    destruct (IH (S base) J) as [n Hn]. exists n. now right. }
  destruct (N (next_uuid s) input_files I) as [n Hn].
  rewrite map_map. apply in_map_iff. exists (n, f). split.
  - unfold artifact_of, artifact_name. cbn [of_display_name fst snd].
    now rewrite D.
  - apply filter_In. split; [exact Hn | exact Y].
Qed.

Lemma missing_display_name_gives_None_name_witness :
  In "None-chromecreds.dict" (map of_display_name (res_output_files result_anonymous)).
Proof.
  apply (missing_display_name_gives_None_name Runtime.cpython Scenario.world Scenario.platform
           (Some "/out") (Some "wf1") [file_anonymous] job_start result_anonymous
           file_anonymous).
  - vm_compute. reflexivity.
  - left. reflexivity.
  - reflexivity.
  - vm_compute. reflexivity.
Defined.
